(** * Faster-Whisper speech recognition service: the request pipeline

    A shallow embedding of [whisper-service/main.py]: the two transcription
    handlers [transcribe_audio] and [transcribe_realtime], the staging of the
    upload to a temporary file, the segment loop and the confidence
    normalisation, followed by the properties the specification states about
    them.

    Conventions of the embedding:
    - a Python [str] is the list of its code points ([pystr]);
    - a Python [float] is an exact rational ([Q]); rounding is not modelled,
      comparisons and the choice made by [max]/[min] are;
    - the handlers run in a state-and-exception monad over a [world] that
      holds the temporary files on disk and a trace of the effects performed;
    - the transcription model is an opaque capability: a function from its
      arguments to either an exception or a lazy, finite stream of segments
      that may itself fail part-way;
    - calls to [logger] are left out: they read the locals and change
      nothing of the state above. *)

From Stdlib Require Import List Bool NArith ZArith QArith Qminmax Lqa String Ascii
  DecimalString Lia.
Import ListNotations.

Set Implicit Arguments.

(* ================================================================== *)
(** ** Python strings *)

Module PyStr.

Definition pystr := list N.

(** A string literal of the source, as code points. *)
Definition lit (s : string) : pystr :=
  map N_of_ascii (list_ascii_of_string s).

Definition pystr_eq_dec : forall a b : pystr, {a = b} + {a <> b} :=
  list_eq_dec N.eq_dec.

(** [str.isspace] on one code point: the characters [str.strip()] removes
    when called without argument. *)
Definition isspace (c : N) : bool :=
  (((9 <=? c) && (c <=? 13)) || ((28 <=? c) && (c <=? 32))
   || (c =? 133) || (c =? 160) || (c =? 5760)
   || ((8192 <=? c) && (c <=? 8202))
   || (c =? 8232) || (c =? 8233) || (c =? 8239) || (c =? 8287)
   || (c =? 12288))%N.

Fixpoint dropwhile (p : N -> bool) (s : pystr) : pystr :=
  match s with
  | [] => []
  | c :: s' => if p c then dropwhile p s' else s
  end.

Definition lstrip (s : pystr) : pystr := dropwhile isspace s.

Definition rstrip (s : pystr) : pystr := rev (dropwhile isspace (rev s)).

(** [s.strip()]: scan from the left, then from the right. *)
Definition strip (s : pystr) : pystr := rstrip (lstrip s).

(** [s.startswith(prefix)] *)
Fixpoint startswith (s prefix : pystr) : bool :=
  match prefix, s with
  | [], _ => true
  | _ :: _, [] => false
  | p :: prefix', c :: s' => (c =? p)%N && startswith s' prefix'
  end.

(** [sep.join(parts)] *)
Fixpoint join (sep : pystr) (parts : list pystr) : pystr :=
  match parts with
  | [] => []
  | [p] => p
  | p :: rest => p ++ sep ++ join sep rest
  end.

End PyStr.
Import PyStr.

(* ================================================================== *)
(** ** Python numbers *)

Module PyNum.

(** [max(a, b)]: the first argument unless the second is strictly greater. *)
Definition py_max (a b : Q) : Q :=
  match a ?= b with
  | Lt => b
  | _ => a
  end.

(** [min(a, b)]: the first argument unless the second is strictly smaller. *)
Definition py_min (a b : Q) : Q :=
  match b ?= a with
  | Lt => b
  | _ => a
  end.

(** [sum(xs)]: left to right from the integer 0. *)
Definition py_sum (xs : list Q) : Q := fold_left Qplus xs 0.

(** [len(xs)] as a number. *)
Definition py_len (A : Type) (xs : list A) : Q :=
  inject_Z (Z.of_nat (List.length xs)).

End PyNum.
Import PyNum.

(* ================================================================== *)
(** ** The host: exceptions, the disk, and the effect monad *)

Module Host.

(** A Python exception caught by [except Exception as e]; [str(e)] is all
    the handlers read of it. *)
Record Exception := { exn_str : pystr }.

(** What leaves a request handler other than a returned value: an
    [HTTPException] raised by the handler, or an exception that no
    [except] clause of the handler caught. *)
Inductive raised :=
| HTTPException (status_code : N) (detail : pystr)
| Unhandled (e : Exception).

Definition path := pystr.
Definition bytes := list N.

Inductive event :=
| Staged (p : path) (content : bytes)
| Inference (p : path)
| Unlinked (p : path).

(** The temporary files on disk and the effects performed so far. *)
Record world := { disk : list path; trace : list event }.

Inductive result (E A : Type) :=
| Returned (a : A)
| Raised (e : E).
Arguments Returned {E A} a.
Arguments Raised {E A} e.

Definition M (E A : Type) := world -> result E A * world.

Definition ret {E A} (a : A) : M E A := fun w => (Returned a, w).

Definition raise {E A} (e : E) : M E A := fun w => (Raised e, w).

Definition bind {E A B} (m : M E A) (k : A -> M E B) : M E B :=
  fun w =>
    match m w with
    | (Returned a, w') => k a w'
    | (Raised e, w') => (Raised e, w')
    end.

(** [try: body / except Exception as e: handler(e)] *)
Definition try_except {E A} (body : M Exception A)
           (handler : Exception -> M E A) : M E A :=
  fun w =>
    match body w with
    | (Returned a, w') => (Returned a, w')
    | (Raised e, w') => handler e w'
    end.

Definition emit {E} (ev : event) : M E unit :=
  fun w => (Returned tt, {| disk := disk w; trace := trace w ++ [ev] |}).

Definition on_disk (p : path) (w : world) : bool :=
  if in_dec pystr_eq_dec p (disk w) then true else false.

(** What the operating system decides for one request: the unique name
    [tempfile] picks, and whether creating the file or filling it fails. *)
Record staging := {
  temp_name : path;
  create_error : option Exception;
  write_error : option Exception
}.

(** [with tempfile.NamedTemporaryFile(delete=False, suffix=".wav") as f:
      content = await upload.read(); f.write(content); path = f.name]
    With [delete=False] the file stays on disk when the block is left,
    also when it is left by an exception. *)
Definition stage_upload (os : staging) (content : bytes) : M Exception path :=
  fun w =>
    match create_error os with
    | Some e => (Raised e, w)
    | None =>
        let p := temp_name os in
        let w1 := {| disk := p :: disk w;
                     trace := trace w ++ [Staged p content] |} in
        match write_error os with
        | Some e => (Raised e, w1)
        | None => (Returned p, w1)
        end
    end.

(** [os.unlink(p)] *)
Definition unlink (p : path) : M Exception unit :=
  fun w =>
    if on_disk p w
    then (Returned tt,
          {| disk := remove pystr_eq_dec p (disk w);
             trace := trace w ++ [Unlinked p] |})
    else (Raised {| exn_str := lit "No such file or directory" |}, w).

End Host.
Import Host.

Declare Scope py_scope.
Delimit Scope py_scope with py.
Notation "x <- m ;; k" := (bind m (fun x => k))
(at level 61, m at next level, right associativity) : py_scope.
Notation "m ;;; k" := (bind m (fun _ => k))
(at level 61, right associativity) : py_scope.

(* ================================================================== *)
(** ** The transcription model (faster-whisper), as an opaque capability *)

Module Whisper.

(** One recognised span of speech.  [avg_logprob] is read with
    [getattr(segment, 'avg_logprob', 0.0)], so it may be absent. *)
Record Segment := {
  seg_start : Q;
  seg_end : Q;
  seg_text : pystr;
  avg_logprob : option Q
}.

Record TranscriptionInfo := { info_language : pystr }.

(** The lazy segment generator: the segments it yields, in order, and the
    exception it raises after them, if any. *)
Record segment_stream := {
  yielded : list Segment;
  failure : option Exception
}.

(** Keyword arguments of [WhisperModel.transcribe] the handlers set. *)
Record decode_options := {
  beam_size : N;
  best_of : N;
  temperature : Q;
  condition_on_previous_text : option bool;
  vad_filter : bool;
  vad_min_silence_duration_ms : option N
}.

Inductive transcribe_outcome :=
| TranscribeRaises (e : Exception)
| TranscribeReturns (segments : segment_stream) (info : TranscriptionInfo).

Record WhisperModel := {
  transcribe_fn : path -> option pystr -> decode_options -> transcribe_outcome
}.

(** [segments, info = whisper_model.transcribe(path, language=..., ...)] *)
Definition transcribe (model : WhisperModel) (p : path)
           (language : option pystr) (opts : decode_options)
  : M Exception (segment_stream * TranscriptionInfo) :=
  (emit (Inference p) ;;;
   match transcribe_fn model p language opts with
   | TranscribeRaises e => raise e
   | TranscribeReturns segments info => ret (segments, info)
   end)%py.

(** One iteration of a [for] loop either falls through or ends in [break]. *)
Inductive control (S : Type) :=
| Continue (st : S)
| Break (st : S).
Arguments Continue {S} st.
Arguments Break {S} st.

Fixpoint iterate {S} (body : S -> Segment -> control S)
         (items : list Segment) (tail : option Exception) (st : S)
  : result Exception S :=
  match items with
  | [] =>
      match tail with
      | Some e => Raised e
      | None => Returned st
      end
  | x :: items' =>
      match body st x with
      | Continue st' => iterate body items' tail st'
      | Break st' => Returned st'
      end
  end.

(** [for segment in segments: body]: draws from the generator one segment
    at a time; a [break] leaves the rest of the generator untouched. *)
Definition for_in {S} (segments : segment_stream)
           (body : S -> Segment -> control S) (init : S) : M Exception S :=
  fun w => (iterate body (yielded segments) (failure segments) init, w).

End Whisper.
Import Whisper.

(* ================================================================== *)
(** ** The service: [whisper-service/main.py] *)

Module Service.

(** The uploaded file as FastAPI hands it over.  [content_type] is the part's
    declared media type, [None] when the part declares none. *)
Record UploadFile := {
  filename : option pystr;
  content_type : option pystr;
  file_content : bytes
}.

(** One entry of [transcript_segments]. *)
Record segment_data := {
  sd_start : Q;
  sd_end : Q;
  sd_text : pystr;
  sd_confidence : Q
}.

(** [class TranscriptionResponse(BaseModel)] *)
Record TranscriptionResponse := {
  text : pystr;
  language : pystr;
  confidence : Q;
  duration : Q;
  segments : list segment_data
}.

(** The dictionary [transcribe_realtime] returns. *)
Record RealtimeResponse := {
  rt_text : pystr;
  rt_language : pystr;
  rt_confidence : Q;
  rt_is_final : bool
}.

(** [language if language != "auto" else None] *)
Definition language_arg (language : pystr) : option pystr :=
  if pystr_eq_dec language (lit "auto") then None else Some language.

(** [getattr(segment, 'avg_logprob', 0.0)] *)
Definition getattr_avg_logprob (segment : Segment) : Q :=
  match avg_logprob segment with
  | Some p => p
  | None => 0
  end.

(** Arguments of the [transcribe] call of [transcribe_audio]. *)
Definition accurate_options : decode_options :=
  {| beam_size := 5;
     best_of := 5;
     temperature := 0;
     condition_on_previous_text := Some false;
     vad_filter := true;
     vad_min_silence_duration_ms := Some 500%N |}.

(** Arguments of the [transcribe] call of [transcribe_realtime]. *)
Definition fast_options : decode_options :=
  {| beam_size := 1;
     best_of := 1;
     temperature := 0;
     condition_on_previous_text := None;
     vad_filter := false;
     vad_min_silence_duration_ms := None |}.

(** The locals the segment loop of [transcribe_audio] updates. *)
Record audio_locals := {
  transcript_segments : list segment_data;
  full_text : pystr;
  total_duration : Q
}.

Definition audio_locals_init : audio_locals :=
  {| transcript_segments := []; full_text := []; total_duration := 0 |}.

(** The body of [for segment in segments:] in [transcribe_audio]. *)
Definition audio_loop_body (st : audio_locals) (segment : Segment)
  : control audio_locals :=
  let data := {| sd_start := seg_start segment;
                 sd_end := seg_end segment;
                 sd_text := strip (seg_text segment);
                 sd_confidence := getattr_avg_logprob segment |} in
  Continue
    {| transcript_segments := transcript_segments st ++ [data];
       full_text := full_text st ++ (strip (seg_text segment) ++ lit " ");
       total_duration := py_max (total_duration st) (seg_end segment) |}.

(** [sum(s.get('confidence', 0) for s in ts) / len(ts) if ts else 0] *)
Definition average_confidence (ts : list segment_data) : Q :=
  match ts with
  | [] => 0
  | _ :: _ => py_sum (map sd_confidence ts) / py_len ts
  end.

(** [max(0.0, min(1.0, (x + 5) / 5))] *)
Definition confidence_score (x : Q) : Q :=
  py_max 0 (py_min 1 ((x + 5) / 5)).

(** The [try] block of [transcribe_audio]. *)
Definition transcribe_audio_body (model : WhisperModel) (os : staging)
           (audio_file : UploadFile) (lang : pystr)
  : M Exception TranscriptionResponse :=
  (temp_file_path <- stage_upload os (file_content audio_file) ;;
   r <- transcribe model temp_file_path (language_arg lang) accurate_options ;;
   st <- for_in (fst r) audio_loop_body audio_locals_init ;;
   unlink temp_file_path ;;;
   let avg_confidence := average_confidence (transcript_segments st) in
   ret {| text := strip (full_text st);
          language := info_language (snd r);
          confidence := confidence_score avg_confidence;
          duration := total_duration st;
          segments := transcript_segments st |})%py.

(** [POST /transcribe] *)
Definition transcribe_audio (whisper_model : option WhisperModel)
           (os : staging) (audio_file : UploadFile) (lang : pystr)
  : M raised TranscriptionResponse :=
  match whisper_model with
  | None =>
      raise (HTTPException 503
               (lit "Whisper model not loaded. Check service health."))
  | Some model =>
      match content_type audio_file with
      | None =>
          raise (Unhandled
                   {| exn_str :=
                        lit "'NoneType' object has no attribute 'startswith'" |})
      | Some ct =>
          if negb (startswith ct (lit "audio/"))
          then raise (HTTPException 400
                        (lit "Invalid file type: " ++ ct
                             ++ lit ". Expected audio file."))
          else
            try_except
              (transcribe_audio_body model os audio_file lang)
              (fun e =>
                 raise (HTTPException 500
                          (lit "Transcription failed: " ++ exn_str e)))
      end
  end.

(** The locals the segment loop of [transcribe_realtime] updates. *)
Record realtime_locals := {
  rl_text : pystr;
  rl_confidence : Q
}.

Definition realtime_locals_init : realtime_locals :=
  {| rl_text := []; rl_confidence := 0 |}.

(** The body of [for segment in segments:] in [transcribe_realtime]; it ends
    in [break]. *)
Definition realtime_loop_body (st : realtime_locals) (segment : Segment)
  : control realtime_locals :=
  Break {| rl_text := rl_text st ++ (strip (seg_text segment) ++ lit " ");
           rl_confidence := getattr_avg_logprob segment |}.

(** The [try] block of [transcribe_realtime]. *)
Definition transcribe_realtime_body (model : WhisperModel) (os : staging)
           (audio_chunk : UploadFile) (lang : pystr)
  : M Exception RealtimeResponse :=
  (temp_file_path <- stage_upload os (file_content audio_chunk) ;;
   r <- transcribe model temp_file_path (language_arg lang) fast_options ;;
   st <- for_in (fst r) realtime_loop_body realtime_locals_init ;;
   unlink temp_file_path ;;;
   ret {| rt_text := strip (rl_text st);
          rt_language := info_language (snd r);
          rt_confidence := confidence_score (rl_confidence st);
          rt_is_final := true |})%py.

(** [POST /transcribe-realtime] *)
Definition transcribe_realtime (whisper_model : option WhisperModel)
           (os : staging) (audio_chunk : UploadFile) (lang : pystr)
  : M raised RealtimeResponse :=
  match whisper_model with
  | None => raise (HTTPException 503 (lit "Whisper model not loaded"))
  | Some model =>
      try_except
        (transcribe_realtime_body model os audio_chunk lang)
        (fun e => raise (HTTPException 500 (exn_str e)))
  end.

End Service.
Import Service.

(* ================================================================== *)
(** ** The specification's own vocabulary

    Definitions that follow the words of the specification (sections 3, 4.2
    and 8); the theorems below compare them with what the handlers compute. *)

Module Spec.

(** [clamp(x, lo, hi)] *)
Definition clamp (x lo hi : Q) : Q :=
  if Qlt_le_dec x lo then lo
  else if Qlt_le_dec hi x then hi
  else x.

Fixpoint total (xs : list Q) : Q :=
  match xs with
  | [] => 0
  | x :: xs' => x + total xs'
  end.

(** Mean of a non-empty list of log-probabilities. *)
Definition mean (xs : list Q) : Q :=
  total xs / inject_Z (Z.of_nat (List.length xs)).

(** The log-probability of a segment: the [avg_logprob] the model reported,
    0.0 when it reported none. *)
Definition logProbability (s : Segment) : Q :=
  match avg_logprob s with
  | Some p => p
  | None => 0
  end.

(** "clamp((mean(logProbability) + 5) / 5, 0, 1)" *)
Definition normalized_confidence (segs : list Segment) : Q :=
  clamp ((mean (map logProbability segs) + 5) / 5) 0 1.

(** Greatest element of the non-empty list [x :: xs]. *)
Fixpoint maximum (x : Q) (xs : list Q) : Q :=
  match xs with
  | [] => x
  | y :: ys => Qmax x (maximum y ys)
  end.

(** "max(segment.end) over all segments (0 if none)" *)
Definition max_end_offset (segs : list Segment) : Q :=
  match map seg_end segs with
  | [] => 0
  | e :: es => maximum e es
  end.

(** The segment texts, each trimmed, in arrival order. *)
Definition trimmed_texts (segs : list Segment) : list pystr :=
  map (fun s => strip (seg_text s)) segs.

(** "each trimmed, joined with a single separating space, trailing
    whitespace stripped" *)
Definition joined_text_trailing (segs : list Segment) : pystr :=
  rstrip (join (lit " ") (trimmed_texts segs)).

(** The same with whitespace stripped at both ends of the concatenation. *)
Definition joined_text (segs : list Segment) : pystr :=
  strip (join (lit " ") (trimmed_texts segs)).

(** Well-formed segment offsets of the data model: [0 <= start <= end]. *)
Definition well_timed (s : Segment) : Prop :=
  0 <= seg_start s /\ seg_start s <= seg_end s.

End Spec.

(* ================================================================== *)
(** ** Closed forms of the handlers' loops and of the worlds they reach *)

Module Run.

(** The locals after one more iteration of the loop of [transcribe_audio]. *)
Definition after_segment (st : audio_locals) (s : Segment) : audio_locals :=
  match audio_loop_body st s with
  | Continue st' => st'
  | Break st' => st'
  end.

(** The locals once the loop of [transcribe_audio] has drained [items]. *)
Definition drained (items : list Segment) : audio_locals :=
  fold_left after_segment items audio_locals_init.

(** The response [transcribe_audio] builds from the drained locals. *)
Definition audio_response (items : list Segment) (info : TranscriptionInfo)
  : TranscriptionResponse :=
  let st := drained items in
  {| text := strip (full_text st);
     language := info_language info;
     confidence := confidence_score (average_confidence (transcript_segments st));
     duration := total_duration st;
     segments := transcript_segments st |}.

(** The locals when the loop of [transcribe_realtime] is left. *)
Definition first_drawn (items : list Segment) : realtime_locals :=
  match items with
  | [] => realtime_locals_init
  | s :: _ =>
      match realtime_loop_body realtime_locals_init s with
      | Continue st' => st'
      | Break st' => st'
      end
  end.

Definition realtime_response (items : list Segment) (info : TranscriptionInfo)
  : RealtimeResponse :=
  let st := first_drawn items in
  {| rt_text := strip (rl_text st);
     rt_language := info_language info;
     rt_confidence := confidence_score (rl_confidence st);
     rt_is_final := true |}.

(** The world once the upload is staged. *)
Definition staged (os : staging) (content : bytes) (w : world) : world :=
  {| disk := temp_name os :: disk w;
     trace := trace w ++ [Staged (temp_name os) content] |}.

(** The world once the model has been called on the staged file. *)
Definition inferred (os : staging) (content : bytes) (w : world) : world :=
  {| disk := temp_name os :: disk w;
     trace := (trace w ++ [Staged (temp_name os) content])
                ++ [Inference (temp_name os)] |}.

(** The world once the staged file has been unlinked. *)
Definition released (os : staging) (content : bytes) (w : world) : world :=
  {| disk := remove pystr_eq_dec (temp_name os) (disk w);
     trace := ((trace w ++ [Staged (temp_name os) content])
                 ++ [Inference (temp_name os)])
                ++ [Unlinked (temp_name os)] |}.

(** What the [except] clause of [transcribe_audio] raises. *)
Definition audio_failure (e : Exception) : raised :=
  HTTPException 500 (lit "Transcription failed: " ++ exn_str e).

(** What the [except] clause of [transcribe_realtime] raises. *)
Definition realtime_failure (e : Exception) : raised :=
  HTTPException 500 (exn_str e).

End Run.
Import Run.

(* ================================================================== *)
(** ** Concrete requests, models and hosts used to exercise the handlers *)

Module Scenario.

(** A model whose [transcribe] answers every call the same way. *)
Definition model_of (out : transcribe_outcome) : WhisperModel :=
  {| transcribe_fn := fun _ _ _ => out |}.

Definition tagalog : TranscriptionInfo := {| info_language := lit "tl" |}.

Definition emits (items : list Segment) : WhisperModel :=
  model_of (TranscribeReturns {| yielded := items; failure := None |} tagalog).

(** Pure silence: the generator yields nothing. *)
Definition silent_model : WhisperModel := emits [].

(** The single segment of section 8 of the specification. *)
Definition hello : Segment :=
  {| seg_start := 0; seg_end := 23 # 10; seg_text := lit "hello";
     avg_logprob := Some (-2 # 10) |}.

Definition hello_model : WhisperModel := emits [hello].

(** A blank segment followed by speech. *)
Definition blank : Segment :=
  {| seg_start := 0; seg_end := 1; seg_text := lit " ";
     avg_logprob := Some (-3) |}.

Definition kumusta : Segment :=
  {| seg_start := 1; seg_end := 2; seg_text := lit " kumusta";
     avg_logprob := Some (-1 # 2) |}.

Definition ka : Segment :=
  {| seg_start := 2; seg_end := 5 # 2; seg_text := lit " ka ";
     avg_logprob := Some (-1 # 4) |}.

Definition blank_first_model : WhisperModel := emits [blank; kumusta].

Definition greeting_model : WhisperModel := emits [kumusta; ka].

(** Log-probabilities far outside [-5, 0]. *)
Definition garbled : Segment :=
  {| seg_start := 0; seg_end := 1; seg_text := lit " zz";
     avg_logprob := Some (-100) |}.

Definition garbled_model : WhisperModel := emits [garbled; garbled].

(** Inference fails inside the model. *)
Definition failing_model : WhisperModel :=
  model_of (TranscribeRaises {| exn_str := lit "model runtime error" |}).

Definition wav_upload : UploadFile :=
  {| filename := Some (lit "clip.wav");
     content_type := Some (lit "audio/wav");
     file_content := [82; 73; 70; 70]%N |}.

Definition text_upload : UploadFile :=
  {| filename := Some (lit "notes.txt");
     content_type := Some (lit "text/plain");
     file_content := [104; 105]%N |}.

Definition tmp_wav : staging :=
  {| temp_name := lit "/tmp/tmpk3v9.wav";
     create_error := None;
     write_error := None |}.

Definition clean : world := {| disk := []; trace := [] |}.

(** The upload [f] with its declared content type replaced. *)
Definition with_content_type (ct : option pystr) (f : UploadFile) : UploadFile :=
  {| filename := filename f;
     content_type := ct;
     file_content := file_content f |}.

End Scenario.
Import Scenario.

(* ================================================================== *)
(** ** More scenarios: generators and hosts that fail *)

Module Faults.

Definition decoder_crash : Exception := {| exn_str := lit "decoder crashed" |}.

Definition disk_full : Exception :=
  {| exn_str := lit "No space left on device" |}.

(** The generator yields one segment and raises when asked for the next. *)
Definition flaky_model : WhisperModel :=
  model_of (TranscribeReturns
              {| yielded := [kumusta]; failure := Some decoder_crash |}
              tagalog).

(** A segment for which the model reports no [avg_logprob]. *)
Definition unscored : Segment :=
  {| seg_start := 2; seg_end := 3; seg_text := lit " po";
     avg_logprob := None |}.

Definition unscored_model : WhisperModel := emits [kumusta; ka; unscored].

(** The temporary file is created but cannot be filled. *)
Definition full_disk : staging :=
  {| temp_name := lit "/tmp/tmpk3v9.wav";
     create_error := None;
     write_error := Some disk_full |}.

(** A world in which an unrelated file is already on disk. *)
Definition busy : world :=
  {| disk := [lit "/tmp/other.wav"]; trace := [] |}.

End Faults.
Import Faults.

(* ================================================================== *)
(** ** The order of a request's effects *)

Module Effects.

(** What one request may add to the trace, and with which outcome: either
    the full sequence stage, infer, unlink with a response, or a proper
    prefix of it with an exception. *)
Definition effects_in_order {A} (os : staging) (content : bytes) (w : world)
           (run : result raised A * world) : Prop :=
  exists evs,
    trace (snd run) = trace w ++ evs
    /\ ((evs = [Staged (temp_name os) content; Inference (temp_name os);
                Unlinked (temp_name os)]
         /\ exists resp, fst run = Returned resp)
        \/ ((evs = []
             \/ evs = [Staged (temp_name os) content]
             \/ evs = [Staged (temp_name os) content;
                       Inference (temp_name os)])
            /\ exists e, fst run = Raised e)).

End Effects.
Import Effects.

(* ================================================================== *)
(** ** Model lifecycle and the read-only endpoints of [main.py] *)

Module Lifecycle.

(** The process environment, as [os.getenv] reads it. *)
Definition environ := pystr -> option pystr.

(** [os.getenv(name, default)] *)
Definition getenv (env : environ) (name default : pystr) : pystr :=
  match env name with
  | Some v => v
  | None => default
  end.

(** The constructor [WhisperModel(model_size, device=..., compute_type=...)]:
    it loads the weights or raises. *)
Definition constructor :=
  pystr -> pystr -> pystr -> result Exception WhisperModel.

(** [initialize_whisper_model()]: the returned flag and the value of the
    global [whisper_model] afterwards. *)
Definition initialize_whisper_model (env : environ) (new_model : constructor)
           (whisper_model : option WhisperModel)
  : bool * option WhisperModel :=
  let model_size := getenv env (lit "WHISPER_MODEL_SIZE") (lit "small") in
  let device := getenv env (lit "WHISPER_DEVICE") (lit "cpu") in
  match new_model model_size device
                  (if pystr_eq_dec device (lit "cuda")
                   then lit "float16" else lit "int8") with
  | Returned m => (true, Some m)
  | Raised _ => (false, whisper_model)
  end.

(** [startup_event()]: a failed initialisation is logged, the process goes
    on.  The value of the global [whisper_model] afterwards. *)
Definition startup_event (env : environ) (new_model : constructor)
           (whisper_model : option WhisperModel) : option WhisperModel :=
  snd (initialize_whisper_model env new_model whisper_model).

(** [class HealthResponse(BaseModel)] *)
Record HealthResponse := {
  status : pystr;
  model_loaded : bool;
  model_size : pystr;
  device : pystr
}.

(** [GET /health] *)
Definition health_check (env : environ) (whisper_model : option WhisperModel)
  : HealthResponse :=
  let loaded := match whisper_model with Some _ => true | None => false end in
  {| status := if loaded then lit "healthy" else lit "unhealthy";
     model_loaded := loaded;
     model_size := getenv env (lit "WHISPER_MODEL_SIZE") (lit "small");
     device := getenv env (lit "WHISPER_DEVICE") (lit "cpu") |}.

(** One entry of the catalogue of [GET /models]. *)
Record model_entry := {
  me_name : pystr;
  me_size : pystr;
  me_speed : pystr;
  me_accuracy : pystr
}.

Record ModelsResponse := {
  available_models : list model_entry;
  current_model : pystr;
  models_device : pystr
}.

(** [GET /models] *)
Definition list_available_models (env : environ) : ModelsResponse :=
  let models :=
    [ {| me_name := lit "tiny"; me_size := lit "39 MB";
         me_speed := lit "~32x"; me_accuracy := lit "Low" |};
      {| me_name := lit "base"; me_size := lit "74 MB";
         me_speed := lit "~16x"; me_accuracy := lit "Medium" |};
      {| me_name := lit "small"; me_size := lit "244 MB";
         me_speed := lit "~6x"; me_accuracy := lit "Good" |};
      {| me_name := lit "medium"; me_size := lit "769 MB";
         me_speed := lit "~2x"; me_accuracy := lit "Better" |};
      {| me_name := lit "large-v2"; me_size := lit "1550 MB";
         me_speed := lit "~1x"; me_accuracy := lit "Best" |};
      {| me_name := lit "large-v3"; me_size := lit "1550 MB";
         me_speed := lit "~1x"; me_accuracy := lit "Best" |} ] in
  {| available_models := models;
     current_model := getenv env (lit "WHISPER_MODEL_SIZE") (lit "small");
     models_device := getenv env (lit "WHISPER_DEVICE") (lit "cpu") |}.

(** An environment that sets nothing, and one that asks for the GPU. *)
Definition no_env : environ := fun _ => None.

Definition cuda_env : environ :=
  fun name =>
    if pystr_eq_dec name (lit "WHISPER_DEVICE") then Some (lit "cuda")
    else None.

(** A constructor that can only load integer-quantised weights. *)
Definition int8_only : constructor :=
  fun _ _ compute_type =>
    if pystr_eq_dec compute_type (lit "int8") then Returned hello_model
    else Raised {| exn_str := lit "float16 is not supported on this device" |}.

(** A constructor that always fails. *)
Definition broken : constructor :=
  fun _ _ _ => Raised {| exn_str := lit "out of memory" |}.

End Lifecycle.
Import Lifecycle.

(* ================================================================== *)
(** ** The installer: [whisper-service/setup.py] *)

Module Setup.

(** [sys.version_info] *)
Record version_info := { major : N; minor : N; micro : N }.

(** How a call of [subprocess.run(..., check=True)] ends: with exit status 0,
    with [CalledProcessError] (any other status), or without the process
    ever starting. *)
Inductive process_end :=
| Completed (stdout stderr : pystr)
| Failed (stdout stderr : pystr)
| NotStarted (e : Exception).

(** A command line: a shell string ([shell=True]) or an argument vector. *)
Inductive invocation :=
| Shell (command : pystr)
| Argv (args : list pystr).

(** What a path of the working directory holds. *)
Inductive node :=
| Dir
| File (content : pystr) (mode : option N).

Definition filesystem := pystr -> option node.

(** Everything the script reads from its surroundings. *)
Record machine := {
  os_name : pystr;
  sys_version : version_info;
  sys_executable : pystr;
  spawn : invocation -> filesystem -> process_end * filesystem;
  open_error : pystr -> option Exception
}.

(** What the script does that can be observed. *)
Inductive action :=
| Printed (line : pystr)
| Spawned (inv : invocation)
| Wrote (p : pystr)
| Chmodded (p : pystr) (mode : N).

Record state := { files : filesystem; journal : list action }.

(** Exceptions of the script: [subprocess.CalledProcessError], the only one
    it catches, and any other. *)
Inductive error :=
| CalledProcessError (stdout stderr : pystr)
| OtherError (e : Exception).

Definition Script (A : Type) := state -> result error A * state.

Definition sret {A} (a : A) : Script A := fun st => (Returned a, st).

Definition sraise {A} (e : error) : Script A := fun st => (Raised e, st).

Definition sbind {A B} (m : Script A) (k : A -> Script B) : Script B :=
  fun st =>
    match m st with
    | (Returned a, st') => k a st'
    | (Raised e, st') => (Raised e, st')
    end.

(** [try: body / except subprocess.CalledProcessError as e: handler(e)] *)
Definition try_called {A} (body : Script A) (handler : pystr -> pystr -> Script A)
  : Script A :=
  fun st =>
    match body st with
    | (Raised (CalledProcessError out err), st') => handler out err st'
    | other => other
    end.

Definition record (a : action) : Script unit :=
  fun st => (Returned tt, {| files := files st; journal := journal st ++ [a] |}).

(** [print(line)] *)
Definition print (line : pystr) : Script unit := record (Printed line).

(** [subprocess.run(inv, check=True, capture_output=True, text=True)]: the
    captured output of a process that exited with status 0. *)
Definition subprocess_run (m : machine) (inv : invocation)
  : Script (pystr * pystr) :=
  fun st =>
    let st' := {| files := snd (spawn m inv (files st));
                  journal := journal st ++ [Spawned inv] |} in
    match fst (spawn m inv (files st)) with
    | Completed out err => (Returned (out, err), st')
    | Failed out err => (Raised (CalledProcessError out err), st')
    | NotStarted e => (Raised (OtherError e), st')
    end.

(** [Path(p).exists()] *)
Definition path_exists (p : pystr) : Script bool :=
  fun st =>
    (Returned match files st p with Some _ => true | None => false end, st).

Definition update (fs : filesystem) (p : pystr) (n : node) : filesystem :=
  fun q => if pystr_eq_dec q p then Some n else fs q.

(** [with open(p, "w") as f: f.write(content)]: an existing file keeps its
    mode, a new one gets the default. *)
Definition write_file (m : machine) (p content : pystr) : Script unit :=
  fun st =>
    match open_error m p with
    | Some e => (Raised (OtherError e), st)
    | None =>
        match files st p with
        | Some Dir =>
            (Raised (OtherError
                       {| exn_str := lit "[Errno 21] Is a directory: '"
                                         ++ p ++ lit "'" |}), st)
        | Some (File _ mode) =>
            (Returned tt,
             {| files := update (files st) p (File content mode);
                journal := journal st ++ [Wrote p] |})
        | None =>
            (Returned tt,
             {| files := update (files st) p (File content None);
                journal := journal st ++ [Wrote p] |})
        end
    end.

(** [os.chmod(p, mode)] *)
Definition chmod (p : pystr) (mode : N) : Script unit :=
  fun st =>
    match files st p with
    | Some (File content _) =>
        (Returned tt,
         {| files := update (files st) p (File content (Some mode));
            journal := journal st ++ [Chmodded p mode] |})
    | Some Dir =>
        (Returned tt,
         {| files := files st; journal := journal st ++ [Chmodded p mode] |})
    | None =>
        (Raised (OtherError
                   {| exn_str := lit "[Errno 2] No such file or directory: '"
                                     ++ p ++ lit "'" |}),
         st)
    end.

End Setup.
Import Setup.

Declare Scope setup_scope.
Delimit Scope setup_scope with setup.
Notation "x <- m ;; k" := (sbind m (fun x => k))
  (at level 61, m at next level, right associativity) : setup_scope.
Notation "m ;;; k" := (sbind m (fun _ => k))
  (at level 61, right associativity) : setup_scope.

(* ================================================================== *)
(** ** The steps of [setup.py] *)

Module Installer.

Local Open Scope setup_scope.

Definition dq : pystr := [34%N].
Definition nl : pystr := [10%N].

(** The marks the script prints in front of its messages. *)
Definition working : pystr := [128260%N].
Definition done : pystr := [9989%N].
Definition cross : pystr := [10060%N].
Definition microphone : pystr := [127908%N].
Definition party : pystr := [127881%N].

(** [str(n)] for a non-negative integer. *)
Definition decimal (n : N) : pystr :=
  lit (NilEmpty.string_of_uint (N.to_uint n)).

(** A triple-quoted text given line by line. *)
Definition text_of (lines : list pystr) : pystr :=
  List.concat (map (fun l => l ++ nl) lines).

(** [run_command(command, description)] *)
Definition run_command (m : machine) (command description : pystr)
  : Script bool :=
  print (working ++ lit " " ++ description ++ lit "...") ;;;
  try_called
    (_ <- subprocess_run m (Shell command) ;;
     print (done ++ lit " " ++ description ++ lit " completed") ;;;
     sret true)
    (fun _ stderr =>
       print (cross ++ lit " " ++ description ++ lit " failed:") ;;;
       print (lit "Error: " ++ stderr) ;;;
       sret false).

(** [check_python_version()] *)
Definition check_python_version (m : machine) : Script bool :=
  let version := sys_version m in
  if ((major version <? 3) || ((major version =? 3) && (minor version <? 8)))%N
  then
    print (cross ++ lit " Python 3.8+ required. Current version: "
                 ++ decimal (major version) ++ lit "."
                 ++ decimal (minor version)) ;;;
    sret false
  else
    print (done ++ lit " Python version: "
                ++ decimal (major version) ++ lit "."
                ++ decimal (minor version) ++ lit "."
                ++ decimal (micro version)) ;;;
    sret true.

(** [setup_virtual_environment()] *)
Definition setup_virtual_environment (m : machine) : Script bool :=
  there <- path_exists (lit "venv") ;;
  if negb there
  then
    print (working ++ lit " Creating virtual environment...") ;;;
    ok <- run_command m (sys_executable m ++ lit " -m venv venv")
                      (lit "Virtual environment creation") ;;
    if negb ok then sret false else sret true
  else
    print (done ++ lit " Virtual environment already exists") ;;;
    sret true.

(** [for command, description in commands: if not run_command(...):
    return False] followed by [return True]. *)
Fixpoint run_each (m : machine) (commands : list (pystr * pystr))
  : Script bool :=
  match commands with
  | [] => sret true
  | (command, description) :: rest =>
      ok <- run_command m command description ;;
      if negb ok then sret false else run_each m rest
  end.

(** [install_dependencies()] *)
Definition install_dependencies (m : machine) : Script bool :=
  let pip_cmd :=
    if pystr_eq_dec (os_name m) (lit "nt")
    then lit "venv\Scripts\pip"
    else lit "venv/bin/pip" in
  let commands :=
    [(pip_cmd ++ lit " install -r requirements.txt",
      lit "Installing dependencies")] in
  run_each m commands.

(** The program [test_installation] hands to the interpreter of the
    virtual environment. *)
Definition test_script : pystr :=
  nl ++ text_of
    [ lit "import sys";
      lit "try:";
      lit "    from faster_whisper import WhisperModel";
      lit "    from fastapi import FastAPI";
      lit "    print(" ++ dq ++ lit "All imports successful" ++ dq ++ lit ")";
      lit "    print(" ++ dq ++ lit "Installation test passed" ++ dq ++ lit ")";
      lit "    sys.exit(0)";
      lit "except ImportError as e:";
      lit "    print(f" ++ dq ++ lit "Import error: {e}" ++ dq ++ lit ")";
      lit "    sys.exit(1)" ].

(** [test_installation()] *)
Definition test_installation (m : machine) : Script bool :=
  print (lit "Testing installation...") ;;;
  let python_cmd :=
    if pystr_eq_dec (os_name m) (lit "nt")
    then lit "venv\Scripts\python"
    else lit "venv/bin/python" in
  try_called
    (r <- subprocess_run m (Argv [python_cmd; lit "-c"; test_script]) ;;
     print (fst r) ;;;
     sret true)
    (fun stdout stderr =>
       print (cross ++ lit " Installation test failed:") ;;;
       print stdout ;;;
       print stderr ;;;
       sret false).

Definition windows_script : pystr :=
  text_of
    [ lit "@echo off";
      lit "echo Starting Faster-Whisper Service...";
      lit "echo.";
      lit "";
      lit "REM Check if virtual environment exists";
      lit "if not exist " ++ dq ++ lit "venv" ++ dq ++ lit " (";
      lit "    echo ERROR: Virtual environment not found. Run setup.py first.";
      lit "    pause";
      lit "    exit /b 1";
      lit ")";
      lit "";
      lit "REM Activate virtual environment and start service";
      lit "echo Starting service on http://localhost:8000";
      lit "echo Press Ctrl+C to stop";
      lit "echo.";
      lit "";
      lit "venv\Scripts\python main.py" ].

Definition unix_script : pystr :=
  text_of
    [ lit "#!/bin/bash";
      lit "echo " ++ dq ++ lit "Starting Faster-Whisper Service..." ++ dq;
      lit "echo";
      lit "";
      lit "# Check if virtual environment exists";
      lit "if [ ! -d " ++ dq ++ lit "venv" ++ dq ++ lit " ]; then";
      lit "    echo " ++ dq
          ++ lit "ERROR: Virtual environment not found. Run setup.py first."
          ++ dq;
      lit "    exit 1";
      lit "fi";
      lit "";
      lit "# Activate virtual environment and start service";
      lit "echo " ++ dq ++ lit "Starting service on http://localhost:8000" ++ dq;
      lit "echo " ++ dq ++ lit "Press Ctrl+C to stop" ++ dq;
      lit "echo";
      lit "";
      lit "source venv/bin/activate";
      lit "python main.py" ].

(** [create_start_script()] *)
Definition create_start_script (m : machine) : Script unit :=
  write_file m (lit "start-whisper.bat") windows_script ;;;
  write_file m (lit "start-whisper.sh") unix_script ;;;
  (if pystr_eq_dec (os_name m) (lit "nt")
   then sret tt
   else chmod (lit "start-whisper.sh") 493) ;;;
  print (done ++ lit " Start scripts created:") ;;;
  print (lit "   - Windows: start-whisper.bat") ;;;
  print (lit "   - Unix/Linux: start-whisper.sh").

(** [main()] *)
Definition main (m : machine) : Script bool :=
  print (microphone ++ lit " Faster-Whisper Service Setup") ;;;
  print (List.concat (repeat (lit "=") 40)) ;;;
  ok <- check_python_version m ;;
  if negb ok then sret false else
  ok <- setup_virtual_environment m ;;
  if negb ok then sret false else
  ok <- install_dependencies m ;;
  if negb ok then sret false else
  ok <- test_installation m ;;
  if negb ok then sret false else
  create_start_script m ;;;
  print (nl ++ party ++ lit " Setup completed successfully!") ;;;
  print (nl ++ lit "Next steps:") ;;;
  print (lit "1. Start the service:") ;;;
  (if pystr_eq_dec (os_name m) (lit "nt")
   then print (lit "   start-whisper.bat")
   else print (lit "   ./start-whisper.sh")) ;;;
  print (lit "2. Test the service: http://localhost:8000/health") ;;;
  print (lit "3. Update your main application to use the new service") ;;;
  print (nl ++ lit "Environment variables (optional):") ;;;
  print (lit "- WHISPER_MODEL_SIZE: tiny, base, small, medium, large-v2, large-v3 (default: small)") ;;;
  print (lit "- WHISPER_DEVICE: cpu, cuda (default: cpu)") ;;;
  print (lit "- WHISPER_PORT: port number (default: 8000)") ;;;
  sret true.

(** The commands [main] may spawn, in the order it spawns them. *)
Definition create_venv (m : machine) : invocation :=
  Shell (sys_executable m ++ lit " -m venv venv").

Definition pip_install (m : machine) : invocation :=
  Shell ((if pystr_eq_dec (os_name m) (lit "nt")
          then lit "venv\Scripts\pip" else lit "venv/bin/pip")
           ++ lit " install -r requirements.txt").

Definition import_test (m : machine) : invocation :=
  Argv [if pystr_eq_dec (os_name m) (lit "nt")
        then lit "venv\Scripts\python" else lit "venv/bin/python";
        lit "-c"; test_script].

(** The commands among a list of actions. *)
Fixpoint spawned (actions : list action) : list invocation :=
  match actions with
  | [] => []
  | Spawned inv :: rest => inv :: spawned rest
  | _ :: rest => spawned rest
  end.

(** The paths written or chmodded among a list of actions. *)
Fixpoint touched (actions : list action) : list pystr :=
  match actions with
  | [] => []
  | Wrote p :: rest => p :: touched rest
  | Chmodded p _ :: rest => p :: touched rest
  | _ :: rest => touched rest
  end.

(** The commands a complete run of [main] spawns from the state [st]: the
    virtual environment is created only when there is none. *)
Definition expected_commands (m : machine) (st : state) : list invocation :=
  match files st (lit "venv") with
  | Some _ => []
  | None => [create_venv m]
  end ++ [pip_install m; import_test m].

(** The version check of the script, on major and minor alone. *)
Definition supported (v : version_info) : Prop :=
  (3 < major v \/ (major v = 3 /\ 8 <= minor v))%N.

(** Hosts for the examples: a Linux machine on which every command works,
    and the same machine with an old interpreter or a failing [pip]. *)
Definition obliging (inv : invocation) (fs : filesystem)
  : process_end * filesystem :=
  (Completed (lit "All imports successful") [],
   update fs (lit "venv") Dir).

Definition linux : machine :=
  {| os_name := lit "posix";
     sys_version := {| major := 3; minor := 11; micro := 4 |};
     sys_executable := lit "/usr/bin/python3";
     spawn := obliging;
     open_error := fun _ => None |}.


Definition no_network (inv : invocation) (fs : filesystem)
  : process_end * filesystem :=
  match inv with
  | Shell _ => (Failed [] (lit "Could not fetch URL"), fs)
  | Argv _ => (Completed [] [], fs)
  end.

Definition offline_linux : machine :=
  {| os_name := lit "posix";
     sys_version := {| major := 3; minor := 11; micro := 4 |};
     sys_executable := lit "/usr/bin/python3";
     spawn := no_network;
     open_error := fun _ => None |}.

Definition windows : machine :=
  {| os_name := lit "nt";
     sys_version := {| major := 3; minor := 12; micro := 0 |};
     sys_executable := lit "C:\Python312\python.exe";
     spawn := obliging;
     open_error := fun _ => None |}.

Definition empty_dir : state := {| files := fun _ => None; journal := [] |}.

Definition with_venv : state :=
  {| files := update (fun _ => None) (lit "venv") Dir; journal := [] |}.

End Installer.
Import Installer.

(* ================================================================== *)
(** ** Summaries of what a step of the installer did *)

Module InstallerLogic.

(** The step [c], run from [st], ends with [r], leaves the files [fs] and
    has added to the journal actions that spawn [cmds] and touch [paths]. *)
Definition runs {A} (c : Script A) (st : state) (r : result error A)
           (fs : filesystem) (cmds : list invocation) (paths : list pystr)
  : Prop :=
  fst (c st) = r
  /\ files (snd (c st)) = fs
  /\ exists acts,
      journal (snd (c st)) = journal st ++ acts
      /\ spawned acts = cmds
      /\ touched acts = paths.

(** Both start scripts are in place, the shell script executable unless the
    machine runs Windows. *)
Definition scripts_ready (m : machine) (fs : filesystem) : Prop :=
  (exists mode, fs (lit "start-whisper.bat") = Some (File windows_script mode))
  /\ (exists mode,
         fs (lit "start-whisper.sh") = Some (File unix_script mode)
         /\ (os_name m <> lit "nt" -> mode = Some 493%N)).

(** What holds of a run of the guarded steps that may spawn [expected]. *)
Definition guarded_outcome (m : machine) (expected : list invocation)
           (r : result error bool) (fs : filesystem)
           (cmds : list invocation) (paths : list pystr) : Prop :=
  (exists k, cmds = firstn k expected)
  /\ (r = Returned false -> paths = [])
  /\ (r = Returned true -> cmds = expected /\ scripts_ready m fs).


(** How a spawned command decides a step. *)
Definition verdict (e : process_end) : result error bool :=
  match e with
  | Completed _ _ => Returned true
  | Failed _ _ => Returned false
  | NotStarted x => Raised (OtherError x)
  end.

(** The steps of [main] from a given point on. *)
Definition finish (m : machine) : Script bool :=
  (create_start_script m ;;;
   print (nl ++ party ++ lit " Setup completed successfully!") ;;;
   print (nl ++ lit "Next steps:") ;;;
   print (lit "1. Start the service:") ;;;
   (if pystr_eq_dec (os_name m) (lit "nt")
    then print (lit "   start-whisper.bat")
    else print (lit "   ./start-whisper.sh")) ;;;
   print (lit "2. Test the service: http://localhost:8000/health") ;;;
   print (lit "3. Update your main application to use the new service") ;;;
   print (nl ++ lit "Environment variables (optional):") ;;;
   print (lit "- WHISPER_MODEL_SIZE: tiny, base, small, medium, large-v2, large-v3 (default: small)") ;;;
   print (lit "- WHISPER_DEVICE: cpu, cuda (default: cpu)") ;;;
   print (lit "- WHISPER_PORT: port number (default: 8000)") ;;;
   sret true)%setup.

Definition from_test (m : machine) : Script bool :=
  (ok <- test_installation m ;;
   if negb ok then sret false else finish m)%setup.

Definition from_install (m : machine) : Script bool :=
  (ok <- install_dependencies m ;;
   if negb ok then sret false else from_test m)%setup.

Definition from_venv (m : machine) : Script bool :=
  (ok <- setup_virtual_environment m ;;
   if negb ok then sret false else from_install m)%setup.

End InstallerLogic.
Import InstallerLogic.

(* ================================================================== *)
(** ** Facts about strings *)

Section StringFacts.

Variable p : N -> bool.

Lemma dropwhile_app (s t : pystr) :
  dropwhile p (s ++ t) =
  if forallb p s then dropwhile p t else dropwhile p s ++ t.
Proof.
  induction s as [|c s IH]; simpl; [reflexivity|].
  destruct (p c); simpl; [exact IH | reflexivity].
Qed.

Lemma dropwhile_all (s : pystr) :
  forallb p s = true -> dropwhile p s = [].
Proof.
  induction s as [|c s IH]; simpl; [reflexivity|].
  destruct (p c); simpl; [exact IH | discriminate].
Qed.

Lemma dropwhile_idem (s : pystr) :
  dropwhile p (dropwhile p s) = dropwhile p s.
Proof.
  induction s as [|c s IH]; simpl; [reflexivity|].
  destruct (p c) eqn:E; [exact IH | simpl; now rewrite E].
Qed.

Lemma dropwhile_head (s : pystr) :
  dropwhile p s = [] \/
  exists c u, dropwhile p s = c :: u /\ p c = false.
Proof.
  induction s as [|c s IH]; simpl; [now left|].
  destruct (p c) eqn:E; [exact IH | right; now exists c, s].
Qed.

End StringFacts.

Lemma lit_space : lit " " = [32%N].
Proof. reflexivity. Qed.

Lemma isspace_space : isspace 32 = true.
Proof. reflexivity. Qed.

Lemma rstrip_nil : rstrip [] = [].
Proof. reflexivity. Qed.

Lemma rstrip_app_space (s : pystr) : rstrip (s ++ [32%N]) = rstrip s.
Proof.
  unfold rstrip. rewrite rev_app_distr. simpl. reflexivity.
Qed.

Lemma rstrip_idem (s : pystr) : rstrip (rstrip s) = rstrip s.
Proof.
  unfold rstrip. now rewrite rev_involutive, dropwhile_idem.
Qed.

Lemma rstrip_cons_keep (c : N) (s : pystr) :
  isspace c = false -> rstrip (c :: s) = c :: rstrip s.
Proof.
  intros Hc. unfold rstrip. simpl rev. rewrite dropwhile_app.
  destruct (forallb isspace (rev s)) eqn:E.
  - rewrite (dropwhile_all _ _ E). simpl. now rewrite Hc.
  - now rewrite rev_app_distr.
Qed.

Lemma strip_app_space (s : pystr) : strip (s ++ [32%N]) = strip s.
Proof.
  unfold strip, lstrip. rewrite dropwhile_app.
  destruct (forallb isspace s) eqn:E.
  - now rewrite (dropwhile_all _ _ E).
  - apply rstrip_app_space.
Qed.

Lemma strip_idem (s : pystr) : strip (strip s) = strip s.
Proof.
  unfold strip, lstrip.
  destruct (dropwhile_head isspace s) as [E | (c & u & E & Hc)]; rewrite E.
  - reflexivity.
  - rewrite (rstrip_cons_keep c u Hc). simpl. rewrite Hc.
    rewrite <- (rstrip_cons_keep c u Hc). apply rstrip_idem.
Qed.

Lemma strip_nil : strip [] = [].
Proof. reflexivity. Qed.

(* ================================================================== *)
(** ** Facts about the effect monad and the two handlers *)

Lemma on_disk_head (p : path) (d : list path) (t : list event) :
  on_disk p {| disk := p :: d; trace := t |} = true.
Proof.
  unfold on_disk. simpl disk.
  destruct (in_dec pystr_eq_dec p (p :: d)) as [_|n]; [reflexivity|].
  exfalso. apply n. now left.
Qed.

Lemma remove_head (p : path) (d : list path) :
  remove pystr_eq_dec p (p :: d) = remove pystr_eq_dec p d.
Proof.
  simpl. destruct (pystr_eq_dec p p) as [_|n]; [reflexivity | now elim n].
Qed.

Lemma iterate_audio (items : list Segment) (tail : option Exception) :
  forall st,
    iterate audio_loop_body items tail st =
    match tail with
    | Some e => Raised e
    | None => Returned (fold_left after_segment items st)
    end.
Proof.
  induction items as [|s items IH]; intros st; simpl.
  - destruct tail; reflexivity.
  - apply IH.
Qed.

Lemma iterate_realtime (items : list Segment) (tail : option Exception) :
  iterate realtime_loop_body items tail realtime_locals_init =
  match items, tail with
  | [], Some e => Raised e
  | _, _ => Returned (first_drawn items)
  end.
Proof.
  destruct items as [|s items]; simpl; [destruct tail|]; reflexivity.
Qed.

(** Every path through the [try] block of [transcribe_audio]. *)
Lemma transcribe_audio_body_run model os audio_file lang w :
  transcribe_audio_body model os audio_file lang w =
  let content := file_content audio_file in
  match create_error os with
  | Some e => (Raised e, w)
  | None =>
      match write_error os with
      | Some e => (Raised e, staged os content w)
      | None =>
          match transcribe_fn model (temp_name os) (language_arg lang)
                              accurate_options with
          | TranscribeRaises e => (Raised e, inferred os content w)
          | TranscribeReturns stream info =>
              match failure stream with
              | Some e => (Raised e, inferred os content w)
              | None =>
                  (Returned (audio_response (yielded stream) info),
                   released os content w)
              end
          end
      end
  end.
Proof.
  unfold transcribe_audio_body, stage_upload, transcribe, emit,
    for_in, unlink, ret, raise, bind.
  cbv zeta.
  destruct (create_error os); [reflexivity|].
  destruct (write_error os); [reflexivity|].
  simpl trace; simpl disk.
  destruct (transcribe_fn _ _ _ _) as [e|stream info]; [reflexivity|].
  simpl fst; simpl snd. rewrite iterate_audio.
  destruct (failure stream); [reflexivity|].
  rewrite on_disk_head. simpl disk; simpl trace. rewrite remove_head.
  reflexivity.
Qed.

(** Every path through the [try] block of [transcribe_realtime]. *)
Lemma transcribe_realtime_body_run model os audio_chunk lang w :
  transcribe_realtime_body model os audio_chunk lang w =
  let content := file_content audio_chunk in
  match create_error os with
  | Some e => (Raised e, w)
  | None =>
      match write_error os with
      | Some e => (Raised e, staged os content w)
      | None =>
          match transcribe_fn model (temp_name os) (language_arg lang)
                              fast_options with
          | TranscribeRaises e => (Raised e, inferred os content w)
          | TranscribeReturns stream info =>
              match yielded stream, failure stream with
              | [], Some e => (Raised e, inferred os content w)
              | _, _ =>
                  (Returned (realtime_response (yielded stream) info),
                   released os content w)
              end
          end
      end
  end.
Proof.
  unfold transcribe_realtime_body, stage_upload, transcribe, emit,
    for_in, unlink, ret, raise, bind.
  cbv zeta.
  destruct (create_error os); [reflexivity|].
  destruct (write_error os); [reflexivity|].
  simpl trace; simpl disk.
  destruct (transcribe_fn _ _ _ _) as [e|stream info]; [reflexivity|].
  simpl fst; simpl snd. rewrite iterate_realtime.
  destruct (yielded stream) as [|s rest] eqn:Ey;
    [destruct (failure stream); [reflexivity|]|];
    rewrite on_disk_head; simpl disk; simpl trace; rewrite remove_head;
    reflexivity.
Qed.

Lemma transcribe_audio_returned model os audio_file lang w resp w' :
  transcribe_audio (Some model) os audio_file lang w = (Returned resp, w') ->
  exists stream info,
    transcribe_fn model (temp_name os) (language_arg lang) accurate_options
      = TranscribeReturns stream info
    /\ failure stream = None
    /\ resp = audio_response (yielded stream) info
    /\ w' = released os (file_content audio_file) w.
Proof.
  unfold transcribe_audio, try_except, raise.
  destruct (content_type audio_file) as [ct|]; [|discriminate].
  destruct (negb _); [discriminate|].
  rewrite transcribe_audio_body_run. cbv zeta.
  destruct (create_error os); [discriminate|].
  destruct (write_error os); [discriminate|].
  destruct (transcribe_fn _ _ _ _) as [e|stream info]; [discriminate|].
  destruct (failure stream) eqn:Ef; [discriminate|].
  intros H. inversion H. now exists stream, info.
Qed.

Lemma transcribe_realtime_returned model os audio_chunk lang w resp w' :
  transcribe_realtime (Some model) os audio_chunk lang w = (Returned resp, w') ->
  exists stream info,
    transcribe_fn model (temp_name os) (language_arg lang) fast_options
      = TranscribeReturns stream info
    /\ resp = realtime_response (yielded stream) info
    /\ w' = released os (file_content audio_chunk) w.
Proof.
  unfold transcribe_realtime, try_except, raise.
  rewrite transcribe_realtime_body_run. cbv zeta.
  destruct (create_error os); [discriminate|].
  destruct (write_error os); [discriminate|].
  destruct (transcribe_fn _ _ _ _) as [e|stream info]; [discriminate|].
  destruct (yielded stream) as [|s rest] eqn:Ey;
    [destruct (failure stream); [discriminate|]|];
    intros H; inversion H; exists stream, info; rewrite Ey; auto.
Qed.

(** *** The locals of the loop of [transcribe_audio], field by field *)

Lemma fold_transcript_confidences (items : list Segment) :
  forall st,
    map sd_confidence (transcript_segments (fold_left after_segment items st))
    = map sd_confidence (transcript_segments st)
        ++ map getattr_avg_logprob items.
Proof.
  induction items as [|s items IH]; intros st; simpl.
  - now rewrite app_nil_r.
  - rewrite IH. simpl. rewrite map_app, <- app_assoc. reflexivity.
Qed.

Lemma fold_transcript_length (items : list Segment) :
  forall st,
    List.length (transcript_segments (fold_left after_segment items st))
    = (List.length (transcript_segments st) + List.length items)%nat.
Proof.
  induction items as [|s items IH]; intros st; simpl.
  - lia.
  - rewrite IH. simpl. rewrite length_app. simpl. lia.
Qed.

Lemma fold_full_text (items : list Segment) :
  forall st,
    full_text (fold_left after_segment items st)
    = full_text st
        ++ List.concat (map (fun s => strip (seg_text s) ++ [32%N]) items).
Proof.
  induction items as [|s items IH]; intros st; simpl.
  - now rewrite app_nil_r.
  - rewrite IH. simpl. rewrite lit_space, <- !app_assoc. reflexivity.
Qed.

Lemma fold_total_duration (items : list Segment) :
  forall st,
    total_duration (fold_left after_segment items st)
    = fold_left py_max (map seg_end items) (total_duration st).
Proof.
  induction items as [|s items IH]; intros st; simpl.
  - reflexivity.
  - now rewrite IH.
Qed.

(** *** Arithmetic of the confidence score and of the duration *)

Lemma py_sum_from (xs : list Q) :
  forall a, fold_left Qplus xs a == a + Spec.total xs.
Proof.
  induction xs as [|x xs IH]; intros a; simpl.
  - lra.
  - rewrite IH. lra.
Qed.

Lemma py_sum_total (xs : list Q) : py_sum xs == Spec.total xs.
Proof. unfold py_sum. rewrite py_sum_from. lra. Qed.

Lemma py_max_Qmax (a b : Q) : py_max a b == Qmax a b.
Proof.
  unfold py_max. destruct (Qcompare_spec a b) as [E|L|G].
  - symmetry. apply Q.max_l. lra.
  - symmetry. apply Q.max_r. lra.
  - symmetry. apply Q.max_l. lra.
Qed.

Lemma confidence_score_bounds (x : Q) :
  0 <= confidence_score x /\ confidence_score x <= 1.
Proof.
  unfold confidence_score, py_max, py_min.
  set (z := (x + 5) / 5).
  destruct (Qcompare_spec z 1) as [E1|L1|G1];
    match goal with
    | |- context [0 ?= ?t] => destruct (Qcompare_spec 0 t) as [E0|L0|G0]
    end; lra.
Qed.

Lemma confidence_score_clamp (x y : Q) :
  x == y -> confidence_score x == Spec.clamp ((y + 5) / 5) 0 1.
Proof.
  intros Exy.
  assert (Ez : (x + 5) / 5 == (y + 5) / 5) by (rewrite Exy; reflexivity).
  unfold confidence_score, Spec.clamp, py_max, py_min.
  set (z := (x + 5) / 5) in *. set (z' := (y + 5) / 5) in *.
  destruct (Qlt_le_dec z' 0) as [A|A];
    [|destruct (Qlt_le_dec 1 z') as [B|B]];
    destruct (Qcompare_spec z 1) as [E1|L1|G1];
    match goal with
    | |- context [0 ?= ?t] => destruct (Qcompare_spec 0 t) as [E0|L0|G0]
    end; lra.
Qed.

Lemma maximum_Qmax (ys : list Q) :
  forall a b, Spec.maximum (Qmax a b) ys == Qmax a (Spec.maximum b ys).
Proof.
  induction ys as [|y ys IH]; intros a b; simpl.
  - reflexivity.
  - rewrite <- Q.max_assoc. reflexivity.
Qed.

Lemma maximum_compat (ys : list Q) :
  forall a b, a == b -> Spec.maximum a ys == Spec.maximum b ys.
Proof.
  destruct ys as [|y ys]; intros a b E; simpl.
  - exact E.
  - now rewrite E.
Qed.

Lemma fold_py_max_maximum (ys : list Q) :
  forall a, fold_left py_max ys a == Spec.maximum a ys.
Proof.
  induction ys as [|y ys IH]; intros a; simpl.
  - reflexivity.
  - rewrite IH. rewrite (maximum_compat ys (py_max_Qmax a y)).
    apply maximum_Qmax.
Qed.

Lemma maximum_ge_head (ys : list Q) : forall a, a <= Spec.maximum a ys.
Proof.
  destruct ys as [|y ys]; intros a; simpl.
  - lra.
  - apply Q.le_max_l.
Qed.

Lemma concat_trailing_join (sep t : pystr) (ts : list pystr) :
  List.concat (map (fun x => x ++ sep) (t :: ts)) = join sep (t :: ts) ++ sep.
Proof.
  revert t. induction ts as [|u ts IH]; intros t.
  - simpl. now rewrite app_nil_r.
  - change (List.concat (map (fun x => x ++ sep) (t :: u :: ts)))
      with ((t ++ sep) ++ List.concat (map (fun x => x ++ sep) (u :: ts))).
    rewrite IH.
    change (join sep (t :: u :: ts)) with (t ++ sep ++ join sep (u :: ts)).
    now rewrite <- !app_assoc.
Qed.

Lemma drained_text (items : list Segment) :
  strip (full_text (drained items)) = Spec.joined_text items.
Proof.
  unfold drained, Spec.joined_text, Spec.trimmed_texts.
  rewrite fold_full_text. simpl full_text. simpl app.
  destruct items as [|s items]; [reflexivity|].
  rewrite <- (map_map (fun s => strip (seg_text s)) (fun x => x ++ [32%N])).
  change (map (fun s => strip (seg_text s)) (s :: items))
    with (strip (seg_text s) :: map (fun s => strip (seg_text s)) items).
  rewrite concat_trailing_join, lit_space.
  apply strip_app_space.
Qed.

Lemma drained_duration (items : list Segment) :
  Forall Spec.well_timed items ->
  total_duration (drained items) == Spec.max_end_offset items.
Proof.
  intros Hwt. unfold drained, Spec.max_end_offset.
  rewrite fold_total_duration. simpl total_duration.
  rewrite fold_py_max_maximum.
  destruct items as [|s items]; simpl; [reflexivity|].
  apply Q.max_r.
  apply Forall_inv in Hwt. destruct Hwt as [H0 H1].
  pose proof (maximum_ge_head (map seg_end items) (seg_end s)). lra.
Qed.

Lemma drained_confidence (items : list Segment) :
  items <> [] ->
  confidence_score (average_confidence (transcript_segments (drained items)))
  == Spec.normalized_confidence items.
Proof.
  intros Hne. unfold Spec.normalized_confidence, Spec.mean, Spec.logProbability.
  apply confidence_score_clamp.
  pose proof (fold_transcript_confidences items audio_locals_init) as Hc.
  pose proof (fold_transcript_length items audio_locals_init) as Hl.
  fold (drained items) in Hc, Hl. simpl in Hc, Hl.
  unfold average_confidence.
  destruct (transcript_segments (drained items)) as [|d ts] eqn:E.
  - destruct items; [now elim Hne | discriminate].
  - rewrite Hc, py_sum_total. unfold py_len. rewrite Hl, length_map.
    reflexivity.
Qed.

Lemma same_outcome {a : transcribe_outcome} {stream info stream' info'} :
  a = TranscribeReturns stream info ->
  a = TranscribeReturns stream' info' ->
  stream' = stream /\ info' = info.
Proof. intros H1 H2. rewrite H1 in H2. now inversion H2. Qed.

(** *** The staged file: released on success, left behind on failure *)

Lemma released_not_on_disk os content w :
  on_disk (temp_name os) (released os content w) = false.
Proof.
  unfold on_disk, released. simpl disk.
  destruct (in_dec pystr_eq_dec _ _) as [i|_]; [|reflexivity].
  now apply remove_In in i.
Qed.

(** A request that succeeds leaves no staged file behind. *)
Lemma staged_file_released_on_success whisper_model os upload lang w :
  (forall resp w',
      transcribe_audio whisper_model os upload lang w = (Returned resp, w') ->
      on_disk (temp_name os) w' = false)
  /\
  (forall resp w',
      transcribe_realtime whisper_model os upload lang w = (Returned resp, w') ->
      on_disk (temp_name os) w' = false).
Proof.
  destruct whisper_model as [model|]; (split; intros resp w' Hrun;
    [|]); try discriminate.
  - apply transcribe_audio_returned in Hrun.
    destruct Hrun as (stream & info & _ & _ & _ & ->).
    apply released_not_on_disk.
  - apply transcribe_realtime_returned in Hrun.
    destruct Hrun as (stream & info & _ & _ & ->).
    apply released_not_on_disk.
Qed.

(** Once the temporary file exists, every failure inside the [try] block of
    [transcribe_audio] leaves it on disk. *)
Lemma staged_file_left_on_failure model os audio_file lang w e w' :
  create_error os = None ->
  transcribe_audio_body model os audio_file lang w = (Raised e, w') ->
  on_disk (temp_name os) w' = true.
Proof.
  intros Hc. rewrite transcribe_audio_body_run. cbv zeta. rewrite Hc.
  destruct (write_error os);
    [|destruct (transcribe_fn _ _ _ _) as [e'|stream info];
      [|destruct (failure stream)]];
    intros H; inversion H; subst; try apply on_disk_head.
Qed.

(** The same for [transcribe_realtime]. *)
Lemma staged_chunk_left_on_failure model os audio_chunk lang w e w' :
  create_error os = None ->
  transcribe_realtime_body model os audio_chunk lang w = (Raised e, w') ->
  on_disk (temp_name os) w' = true.
Proof.
  intros Hc. rewrite transcribe_realtime_body_run. cbv zeta. rewrite Hc.
  destruct (write_error os);
    [|destruct (transcribe_fn _ _ _ _) as [e'|stream info];
      [|destruct (yielded stream); [destruct (failure stream)|]]];
    intros H; inversion H; subst; try apply on_disk_head.
Qed.

(** While the model is not loaded both handlers answer 503 and touch nothing. *)
Lemma unloaded_model_is_unavailable os upload lang w :
  transcribe_audio None os upload lang w
  = (Raised (HTTPException 503
               (lit "Whisper model not loaded. Check service health.")), w)
  /\ transcribe_realtime None os upload lang w
     = (Raised (HTTPException 503 (lit "Whisper model not loaded")), w).
Proof. split; reflexivity. Qed.

(** The worked example of the specification: one segment from 0.0 to 2.3
    with log-probability -0.2 gives duration 2.3 and confidence 0.96. *)
Example single_segment_example :
  duration (audio_response [hello] tagalog) == 23 # 10
  /\ confidence (audio_response [hello] tagalog) == 96 # 100
  /\ text (audio_response [hello] tagalog) = lit "hello".
Proof. repeat split; vm_compute; reflexivity. Qed.

(** *** When stripping at the right end alone gives the same text *)

Lemma strip_head (s : pystr) c u : strip s = c :: u -> isspace c = false.
Proof.
  unfold strip, lstrip.
  destruct (dropwhile_head isspace s) as [E | (c' & u' & E & Hc)]; rewrite E.
  - discriminate.
  - rewrite (rstrip_cons_keep c' u' Hc). intros H. inversion H. subst. exact Hc.
Qed.

Lemma join_head (sep : pystr) c u (ts : list pystr) :
  exists v, join sep ((c :: u) :: ts) = c :: v.
Proof.
  destruct ts as [|t ts]; simpl; eauto.
Qed.

Lemma strip_keeps_head (x : pystr) c v :
  x = c :: v -> isspace c = false -> strip x = rstrip x.
Proof.
  intros -> Hc. unfold strip, lstrip. simpl. now rewrite Hc.
Qed.

(** If the first segment is not blank, the returned text is also the joined
    trimmed texts with only trailing whitespace stripped. *)
Lemma drained_text_trailing (first : Segment) (rest : list Segment) :
  strip (seg_text first) <> [] ->
  strip (full_text (drained (first :: rest)))
  = Spec.joined_text_trailing (first :: rest).
Proof.
  intros Hne. rewrite drained_text.
  unfold Spec.joined_text, Spec.joined_text_trailing, Spec.trimmed_texts.
  cbn [map].
  destruct (strip (seg_text first)) as [|c u] eqn:E; [now elim Hne|].
  destruct (join_head (lit " ") c u
              (map (fun s => strip (seg_text s)) rest)) as [v Hv].
  apply (strip_keeps_head Hv). exact (strip_head _ E).
Qed.

(* ================================================================== *)
(** ** The specification's claims about the primary path *)

(** C1, as stated, fails: on pure silence [transcribe_audio] answers with an
    empty text, duration 0 and no segments, but with confidence 1, not 0.
    The mean log-probability defaults to 0 and is then normalised like any
    other: (0 + 5) / 5 = 1. *)
Lemma C1_silence_scores_full_confidence :
  fst (transcribe_audio (Some silent_model) tmp_wav wav_upload (lit "tl") clean)
  = Returned {| text := []; language := lit "tl"; confidence := 1;
                duration := 0; segments := [] |}
  /\ ~ (1 == 0).
Proof. split; [vm_compute; reflexivity | discriminate]. Qed.

(** C1, amended: when the model emits zero segments, a successful response of
    [transcribe_audio] has text "", confidence 1, duration 0 and an empty
    segment list. *)
Theorem C1_zero_segments_response
        model os audio_file lang w resp w' stream info :
  transcribe_audio (Some model) os audio_file lang w = (Returned resp, w') ->
  transcribe_fn model (temp_name os) (language_arg lang) accurate_options
    = TranscribeReturns stream info ->
  yielded stream = [] ->
  text resp = [] /\ confidence resp == 1 /\ duration resp == 0
  /\ segments resp = [].
Proof.
  intros Hrun Hm Hy.
  apply transcribe_audio_returned in Hrun.
  destruct Hrun as (stream' & info' & Hm' & _ & -> & _).
  destruct (same_outcome Hm Hm') as [-> ->]. rewrite Hy.
  repeat split; reflexivity.
Qed.

Lemma C1_zero_segments_witness :
  transcribe_audio (Some silent_model) tmp_wav wav_upload (lit "tl") clean
  = (Returned (audio_response [] tagalog),
     released tmp_wav (file_content wav_upload) clean)
  /\ (text (audio_response [] tagalog) = []
      /\ confidence (audio_response [] tagalog) == 1
      /\ duration (audio_response [] tagalog) == 0
      /\ segments (audio_response [] tagalog) = []).
Proof.
  split; [reflexivity|].
  apply (@C1_zero_segments_response silent_model tmp_wav wav_upload (lit "tl")
           clean (audio_response [] tagalog)
           (released tmp_wav (file_content wav_upload) clean)
           {| yielded := []; failure := None |} tagalog);
    reflexivity.
Defined.

(** C2: the staged file outlives a failed request.  When inference raises,
    both handlers answer 500 and the temporary file is still on disk: the
    [os.unlink] call sits on the success path only. *)
Theorem C2_staged_file_left_after_inference_failure :
  (fst (transcribe_audio (Some failing_model) tmp_wav wav_upload (lit "tl") clean)
   = Raised (HTTPException 500 (lit "Transcription failed: model runtime error"))
   /\ on_disk (temp_name tmp_wav)
        (snd (transcribe_audio (Some failing_model) tmp_wav wav_upload
                (lit "tl") clean)) = true)
  /\
  (fst (transcribe_realtime (Some failing_model) tmp_wav wav_upload (lit "tl") clean)
   = Raised (HTTPException 500 (lit "model runtime error"))
   /\ on_disk (temp_name tmp_wav)
        (snd (transcribe_realtime (Some failing_model) tmp_wav wav_upload
                (lit "tl") clean)) = true).
Proof. repeat split; vm_compute; reflexivity. Qed.

(** C3: with at least one segment, the confidence of a successful response of
    [transcribe_audio] is clamp((mean of the log-probabilities + 5) / 5, 0, 1). *)
Theorem C3_confidence_is_normalized_mean
        model os audio_file lang w resp w' stream info :
  transcribe_audio (Some model) os audio_file lang w = (Returned resp, w') ->
  transcribe_fn model (temp_name os) (language_arg lang) accurate_options
    = TranscribeReturns stream info ->
  yielded stream <> [] ->
  confidence resp == Spec.normalized_confidence (yielded stream).
Proof.
  intros Hrun Hm Hne.
  apply transcribe_audio_returned in Hrun.
  destruct Hrun as (stream' & info' & Hm' & _ & -> & _).
  destruct (same_outcome Hm Hm') as [-> ->].
  now apply drained_confidence.
Qed.

Lemma C3_confidence_witness :
  transcribe_audio (Some unscored_model) tmp_wav wav_upload (lit "tl") clean
  = (Returned (audio_response [kumusta; ka; unscored] tagalog),
     released tmp_wav (file_content wav_upload) clean)
  /\ map Spec.logProbability [kumusta; ka; unscored] = [-1 # 2; -1 # 4; 0]
  /\ Spec.normalized_confidence [kumusta; ka; unscored] == 19 # 20
  /\ confidence (audio_response [kumusta; ka; unscored] tagalog)
     == Spec.normalized_confidence [kumusta; ka; unscored].
Proof.
  split; [reflexivity|]. split; [reflexivity|]. split; [reflexivity|].
  apply (@C3_confidence_is_normalized_mean unscored_model tmp_wav wav_upload
           (lit "tl") clean (audio_response [kumusta; ka; unscored] tagalog)
           (released tmp_wav (file_content wav_upload) clean)
           {| yielded := [kumusta; ka; unscored]; failure := None |} tagalog);
    [reflexivity | reflexivity | discriminate].
Defined.

(** C4: whatever the log-probabilities and however many segments, the
    confidence of every successful response of either handler lies in [0, 1]. *)
Theorem C4_confidence_within_unit_interval whisper_model os upload lang w :
  (forall resp w',
      transcribe_audio whisper_model os upload lang w = (Returned resp, w') ->
      0 <= confidence resp /\ confidence resp <= 1)
  /\
  (forall resp w',
      transcribe_realtime whisper_model os upload lang w = (Returned resp, w') ->
      0 <= rt_confidence resp /\ rt_confidence resp <= 1).
Proof.
  destruct whisper_model as [model|]; (split; intros resp w' Hrun;
    [|]); try discriminate.
  - apply transcribe_audio_returned in Hrun.
    destruct Hrun as (stream & info & _ & _ & -> & _).
    apply confidence_score_bounds.
  - apply transcribe_realtime_returned in Hrun.
    destruct Hrun as (stream & info & _ & -> & _).
    apply confidence_score_bounds.
Qed.

Lemma C4_confidence_witness :
  (0 <= confidence (audio_response [garbled; garbled] tagalog)
   /\ confidence (audio_response [garbled; garbled] tagalog) <= 1)
  /\
  (0 <= rt_confidence (realtime_response [garbled; garbled] tagalog)
   /\ rt_confidence (realtime_response [garbled; garbled] tagalog) <= 1).
Proof.
  split.
  - apply (proj1 (C4_confidence_within_unit_interval (Some garbled_model)
                    tmp_wav wav_upload (lit "tl") clean)
             (audio_response [garbled; garbled] tagalog)
             (released tmp_wav (file_content wav_upload) clean)).
    reflexivity.
  - apply (proj2 (C4_confidence_within_unit_interval (Some garbled_model)
                    tmp_wav wav_upload (lit "tl") clean)
             (realtime_response [garbled; garbled] tagalog)
             (released tmp_wav (file_content wav_upload) clean)).
    reflexivity.
Defined.

(** C5, as stated, fails: when the first segment is blank, joining the trimmed
    texts with single spaces and stripping trailing whitespace only would
    leave a leading space; [transcribe_audio] returns the text without it. *)
Lemma C5_leading_blank_is_stripped_too :
  fst (transcribe_audio (Some blank_first_model) tmp_wav wav_upload (lit "tl")
         clean)
  = Returned (audio_response [blank; kumusta] tagalog)
  /\ text (audio_response [blank; kumusta] tagalog) = lit "kumusta"
  /\ Spec.joined_text_trailing [blank; kumusta] = lit " kumusta"
  /\ text (audio_response [blank; kumusta] tagalog)
     <> Spec.joined_text_trailing [blank; kumusta].
Proof. repeat split; try (vm_compute; reflexivity). discriminate. Qed.

(** C5, amended: the text of a successful response of [transcribe_audio] is
    the segment texts, each trimmed, joined in arrival order with a single
    separating space, with leading and trailing whitespace stripped from the
    concatenation. *)
Theorem C5_text_is_joined_trimmed_segments
        model os audio_file lang w resp w' stream info :
  transcribe_audio (Some model) os audio_file lang w = (Returned resp, w') ->
  transcribe_fn model (temp_name os) (language_arg lang) accurate_options
    = TranscribeReturns stream info ->
  text resp = Spec.joined_text (yielded stream).
Proof.
  intros Hrun Hm.
  apply transcribe_audio_returned in Hrun.
  destruct Hrun as (stream' & info' & Hm' & _ & -> & _).
  destruct (same_outcome Hm Hm') as [-> ->].
  apply drained_text.
Qed.

Lemma C5_text_witness :
  transcribe_audio (Some greeting_model) tmp_wav wav_upload (lit "tl") clean
  = (Returned (audio_response [kumusta; ka] tagalog),
     released tmp_wav (file_content wav_upload) clean)
  /\ text (audio_response [kumusta; ka] tagalog)
     = Spec.joined_text [kumusta; ka].
Proof.
  split; [reflexivity|].
  apply (@C5_text_is_joined_trimmed_segments greeting_model tmp_wav wav_upload
           (lit "tl") clean (audio_response [kumusta; ka] tagalog)
           (released tmp_wav (file_content wav_upload) clean)
           {| yielded := [kumusta; ka]; failure := None |} tagalog);
    reflexivity.
Defined.

(** C6: the duration of a successful response of [transcribe_audio] is the
    greatest end offset over the segments the model emitted (segments timed
    as the data model requires, 0 <= start <= end), and 0 when there are none. *)
Theorem C6_duration_is_max_end_offset
        model os audio_file lang w resp w' stream info :
  transcribe_audio (Some model) os audio_file lang w = (Returned resp, w') ->
  transcribe_fn model (temp_name os) (language_arg lang) accurate_options
    = TranscribeReturns stream info ->
  Forall Spec.well_timed (yielded stream) ->
  duration resp == Spec.max_end_offset (yielded stream)
  /\ (yielded stream = [] -> duration resp == 0).
Proof.
  intros Hrun Hm Hwt.
  apply transcribe_audio_returned in Hrun.
  destruct Hrun as (stream' & info' & Hm' & _ & -> & _).
  destruct (same_outcome Hm Hm') as [-> ->].
  split.
  - now apply drained_duration.
  - intros ->. reflexivity.
Qed.

Lemma C6_duration_witness :
  transcribe_audio (Some greeting_model) tmp_wav wav_upload (lit "tl") clean
  = (Returned (audio_response [kumusta; ka] tagalog),
     released tmp_wav (file_content wav_upload) clean)
  /\ Forall Spec.well_timed [kumusta; ka]
  /\ duration (audio_response [kumusta; ka] tagalog)
     == Spec.max_end_offset [kumusta; ka].
Proof.
  assert (Hwt : Forall Spec.well_timed [kumusta; ka]).
  { repeat constructor; discriminate. }
  split; [reflexivity|]. split; [exact Hwt|].
  apply (proj1
           (@C6_duration_is_max_end_offset greeting_model tmp_wav wav_upload
              (lit "tl") clean (audio_response [kumusta; ka] tagalog)
              (released tmp_wav (file_content wav_upload) clean)
              {| yielded := [kumusta; ka]; failure := None |} tagalog
              eq_refl eq_refl Hwt)).
Defined.

(** C7, as stated, fails: while the model is not loaded, a request declaring
    [text/plain] is answered 503 (service unavailable), not 400. *)
Lemma C7_unloaded_model_answers_503 :
  content_type text_upload = Some (lit "text/plain")
  /\ startswith (lit "text/plain") (lit "audio/") = false
  /\ transcribe_audio None tmp_wav text_upload (lit "tl") clean
     = (Raised (HTTPException 503
                  (lit "Whisper model not loaded. Check service health.")),
        clean)
  /\ (forall detail,
         fst (transcribe_audio None tmp_wav text_upload (lit "tl") clean)
         <> Raised (HTTPException 400 detail)).
Proof. repeat split; try reflexivity. intros detail. discriminate. Qed.

(** C7, amended: while the model is loaded, every request to
    [transcribe_audio] whose declared content type does not begin with
    [audio/] fails with status 400 and a detail naming the rejected type, and
    the world is left as it was: nothing was staged and no inference ran. *)
Theorem C7_non_audio_rejected_before_staging
        model os audio_file lang w ct :
  content_type audio_file = Some ct ->
  startswith ct (lit "audio/") = false ->
  transcribe_audio (Some model) os audio_file lang w
  = (Raised (HTTPException 400
               (lit "Invalid file type: " ++ ct ++ lit ". Expected audio file.")),
     w).
Proof.
  intros Hct Hp. unfold transcribe_audio. rewrite Hct, Hp. reflexivity.
Qed.

Lemma C7_rejection_witness :
  content_type text_upload = Some (lit "text/plain")
  /\ startswith (lit "text/plain") (lit "audio/") = false
  /\ transcribe_audio (Some hello_model) tmp_wav text_upload (lit "tl") clean
     = (Raised (HTTPException 400
                  (lit "Invalid file type: " ++ lit "text/plain"
                       ++ lit ". Expected audio file.")),
        clean).
Proof.
  split; [reflexivity|]. split; [reflexivity|].
  apply (@C7_non_audio_rejected_before_staging hello_model tmp_wav text_upload
           (lit "tl") clean (lit "text/plain"));
    reflexivity.
Defined.

(* ================================================================== *)
(** ** The specification's claims about the low-latency path *)

Lemma first_drawn_text (items : list Segment) :
  strip (rl_text (first_drawn items))
  = match items with
    | [] => []
    | first :: _ => strip (seg_text first)
    end.
Proof.
  destruct items as [|s rest]; [reflexivity|].
  simpl. rewrite lit_space, strip_app_space. apply strip_idem.
Qed.

Lemma realtime_never_400 model os audio_chunk lang w detail :
  fst (transcribe_realtime (Some model) os audio_chunk lang w)
  <> Raised (HTTPException 400 detail).
Proof.
  unfold transcribe_realtime, try_except, raise.
  rewrite transcribe_realtime_body_run. cbv zeta.
  destruct (create_error os); [discriminate|].
  destruct (write_error os); [discriminate|].
  destruct (transcribe_fn _ _ _ _) as [e|stream info]; [discriminate|].
  destruct (yielded stream); [destruct (failure stream)|]; discriminate.
Qed.

Lemma realtime_trace model os audio_chunk lang w :
  create_error os = None ->
  In (Staged (temp_name os) (file_content audio_chunk))
     (trace (snd (transcribe_realtime (Some model) os audio_chunk lang w)))
  /\ (write_error os = None ->
      In (Inference (temp_name os))
         (trace (snd (transcribe_realtime (Some model) os audio_chunk lang w)))).
Proof.
  intros Hc.
  unfold transcribe_realtime, try_except, raise.
  rewrite transcribe_realtime_body_run. cbv zeta. rewrite Hc.
  destruct (write_error os).
  - split; [|discriminate]. simpl. apply in_or_app. right. now left.
  - destruct (transcribe_fn _ _ _ _) as [e|stream info];
      [|destruct (yielded stream); [destruct (failure stream)|]];
      simpl; split; intros; rewrite ?in_app_iff; simpl; tauto.
Qed.

(** C8: a successful response of [transcribe_realtime] carries
    [is_final = true], and its text is the trimmed text of the first segment
    (empty when there is none): later segments never contribute. *)
Theorem C8_realtime_first_segment_only
        model os audio_chunk lang w resp w' stream info :
  transcribe_realtime (Some model) os audio_chunk lang w = (Returned resp, w') ->
  transcribe_fn model (temp_name os) (language_arg lang) fast_options
    = TranscribeReturns stream info ->
  rt_is_final resp = true
  /\ rt_text resp = match yielded stream with
                    | [] => []
                    | first :: _ => strip (seg_text first)
                    end.
Proof.
  intros Hrun Hm.
  apply transcribe_realtime_returned in Hrun.
  destruct Hrun as (stream' & info' & Hm' & -> & _).
  destruct (same_outcome Hm Hm') as [-> ->].
  split; [reflexivity|]. apply first_drawn_text.
Qed.

Lemma C8_realtime_witness :
  transcribe_realtime (Some greeting_model) tmp_wav wav_upload (lit "tl") clean
  = (Returned (realtime_response [kumusta; ka] tagalog),
     released tmp_wav (file_content wav_upload) clean)
  /\ rt_is_final (realtime_response [kumusta; ka] tagalog) = true
  /\ rt_text (realtime_response [kumusta; ka] tagalog)
     = strip (seg_text kumusta).
Proof.
  split; [reflexivity|].
  apply (@C8_realtime_first_segment_only greeting_model tmp_wav wav_upload
           (lit "tl") clean (realtime_response [kumusta; ka] tagalog)
           (released tmp_wav (file_content wav_upload) clean)
           {| yielded := [kumusta; ka]; failure := None |} tagalog);
    reflexivity.
Defined.

(** C9: [transcribe_realtime] never looks at the declared content type.  With
    the model loaded, no request is answered 400, the outcome is the same
    whatever type is declared (or none), and the handler goes on to stage the
    chunk and, once staged, to call the model. *)
Theorem C9_realtime_ignores_content_type model os audio_chunk lang w :
  (forall detail,
      fst (transcribe_realtime (Some model) os audio_chunk lang w)
      <> Raised (HTTPException 400 detail))
  /\ (forall ct,
         transcribe_realtime (Some model) os
           (with_content_type ct audio_chunk) lang w
         = transcribe_realtime (Some model) os audio_chunk lang w)
  /\ (create_error os = None ->
      In (Staged (temp_name os) (file_content audio_chunk))
         (trace (snd (transcribe_realtime (Some model) os audio_chunk lang w))))
  /\ (create_error os = None -> write_error os = None ->
      In (Inference (temp_name os))
         (trace (snd (transcribe_realtime (Some model) os audio_chunk lang w)))).
Proof.
  split; [intros detail; apply realtime_never_400|].
  split; [intros ct; reflexivity|].
  split; [intros Hc | intros Hc Hw];
    destruct (@realtime_trace model os audio_chunk lang w Hc) as [Hs Hi]; auto.
Qed.

Lemma C9_realtime_witness :
  create_error tmp_wav = None /\ write_error tmp_wav = None
  /\ transcribe_realtime (Some hello_model) tmp_wav
       (with_content_type (Some (lit "text/plain")) text_upload) (lit "tl") clean
     = transcribe_realtime (Some hello_model) tmp_wav text_upload (lit "tl") clean
  /\ In (Staged (temp_name tmp_wav) (file_content text_upload))
        (trace (snd (transcribe_realtime (Some hello_model) tmp_wav text_upload
                       (lit "tl") clean)))
  /\ In (Inference (temp_name tmp_wav))
        (trace (snd (transcribe_realtime (Some hello_model) tmp_wav text_upload
                       (lit "tl") clean))).
Proof.
  pose proof (C9_realtime_ignores_content_type hello_model tmp_wav text_upload
                (lit "tl") clean) as (_ & Hsame & Hs & Hi).
  split; [reflexivity|]. split; [reflexivity|].
  split; [apply Hsame|].
  split; [apply Hs | apply Hi]; reflexivity.
Defined.

(** C10: when the model emits zero segments, a successful response of
    [transcribe_realtime] has text "" and confidence 1: the initial
    log-probability 0.0 is normalised to (0 + 5) / 5 = 1. *)
Theorem C10_realtime_silence_scores_one
        model os audio_chunk lang w resp w' stream info :
  transcribe_realtime (Some model) os audio_chunk lang w = (Returned resp, w') ->
  transcribe_fn model (temp_name os) (language_arg lang) fast_options
    = TranscribeReturns stream info ->
  yielded stream = [] ->
  rt_text resp = [] /\ rt_confidence resp == 1
  /\ rt_confidence resp == Spec.clamp ((0 + 5) / 5) 0 1.
Proof.
  intros Hrun Hm Hy.
  apply transcribe_realtime_returned in Hrun.
  destruct Hrun as (stream' & info' & Hm' & -> & _).
  destruct (same_outcome Hm Hm') as [-> ->]. rewrite Hy.
  repeat split; reflexivity.
Qed.

Lemma C10_realtime_silence_witness :
  transcribe_realtime (Some silent_model) tmp_wav wav_upload (lit "tl") clean
  = (Returned (realtime_response [] tagalog),
     released tmp_wav (file_content wav_upload) clean)
  /\ rt_text (realtime_response [] tagalog) = []
  /\ rt_confidence (realtime_response [] tagalog) == 1
  /\ rt_confidence (realtime_response [] tagalog)
     == Spec.clamp ((0 + 5) / 5) 0 1.
Proof.
  split; [reflexivity|].
  apply (@C10_realtime_silence_scores_one silent_model tmp_wav wav_upload
           (lit "tl") clean (realtime_response [] tagalog)
           (released tmp_wav (file_content wav_upload) clean)
           {| yielded := []; failure := None |} tagalog);
    reflexivity.
Defined.

(* ================================================================== *)
(** ** Further properties of the two handlers *)

Lemma fold_transcript_entries (items : list Segment) :
  forall st,
    transcript_segments (fold_left after_segment items st)
    = transcript_segments st
        ++ map (fun s => {| sd_start := seg_start s;
                            sd_end := seg_end s;
                            sd_text := strip (seg_text s);
                            sd_confidence := getattr_avg_logprob s |}) items.
Proof.
  induction items as [|s items IH]; intros st; simpl.
  - now rewrite app_nil_r.
  - rewrite IH. simpl. now rewrite <- app_assoc.
Qed.

Lemma maximum_ge_each (ys : list Q) :
  forall a y, In y ys -> y <= Spec.maximum a ys.
Proof.
  induction ys as [|z ys IH]; intros a y Hin; [now elim Hin|].
  simpl. destruct Hin as [->|Hin].
  - pose proof (maximum_ge_head ys y) as H.
    pose proof (Q.le_max_r a (Spec.maximum y ys)). lra.
  - pose proof (IH z y Hin) as H.
    pose proof (Q.le_max_r a (Spec.maximum z ys)). lra.
Qed.

Lemma confidence_score_unfold (x : Q) :
  (x + 5) / 5 == (x + 5) * (1 # 5).
Proof. reflexivity. Qed.

(** The segment list of the response mirrors what the model emitted: one
    entry per segment, in the same order, with the offsets copied, the text
    trimmed and the log-probability (0.0 when absent) as its confidence; the
    language is the model's report. *)
Theorem audio_segments_mirror_model
        model os audio_file lang w resp w' stream info :
  transcribe_audio (Some model) os audio_file lang w = (Returned resp, w') ->
  transcribe_fn model (temp_name os) (language_arg lang) accurate_options
    = TranscribeReturns stream info ->
  segments resp
  = map (fun s => {| sd_start := seg_start s;
                     sd_end := seg_end s;
                     sd_text := strip (seg_text s);
                     sd_confidence := match avg_logprob s with
                                      | Some p => p
                                      | None => 0
                                      end |})
        (yielded stream)
  /\ List.length (segments resp) = List.length (yielded stream)
  /\ language resp = info_language info.
Proof.
  intros Hrun Hm.
  apply transcribe_audio_returned in Hrun.
  destruct Hrun as (stream' & info' & Hm' & _ & -> & _).
  destruct (same_outcome Hm Hm') as [-> ->].
  assert (E : segments (audio_response (yielded stream) info)
              = map (fun s => {| sd_start := seg_start s;
                                 sd_end := seg_end s;
                                 sd_text := strip (seg_text s);
                                 sd_confidence := match avg_logprob s with
                                                  | Some p => p
                                                  | None => 0
                                                  end |})
                    (yielded stream)).
  { unfold audio_response, drained. cbn [segments].
    rewrite fold_transcript_entries. reflexivity. }
  split; [exact E|]. split; [|reflexivity].
  rewrite E. apply length_map.
Qed.

Lemma audio_segments_mirror_witness :
  transcribe_audio (Some unscored_model) tmp_wav wav_upload (lit "tl") clean
  = (Returned (audio_response [kumusta; ka; unscored] tagalog),
     released tmp_wav (file_content wav_upload) clean)
  /\ map sd_text (segments (audio_response [kumusta; ka; unscored] tagalog))
     = [lit "kumusta"; lit "ka"; lit "po"]
  /\ map sd_confidence
         (segments (audio_response [kumusta; ka; unscored] tagalog))
     = [-1 # 2; -1 # 4; 0]
  /\ map sd_end (segments (audio_response [kumusta; ka; unscored] tagalog))
     = [2; 5 # 2; 3]
  /\ List.length (segments (audio_response [kumusta; ka; unscored] tagalog))
     = 3%nat.
Proof.
  split; [reflexivity|].
  destruct (@audio_segments_mirror_model unscored_model tmp_wav wav_upload
              (lit "tl") clean (audio_response [kumusta; ka; unscored] tagalog)
              (released tmp_wav (file_content wav_upload) clean)
              {| yielded := [kumusta; ka; unscored]; failure := None |} tagalog
              eq_refl eq_refl) as (Hs & Hl & _).
  split; [rewrite Hs; reflexivity|].
  split; [rewrite Hs; reflexivity|].
  split; [rewrite Hs; reflexivity | exact Hl].
Defined.

(** Whatever offsets the model reports, the duration of a successful response
    is never negative and is at least the end offset of every segment. *)
Theorem audio_duration_bounds
        model os audio_file lang w resp w' stream info :
  transcribe_audio (Some model) os audio_file lang w = (Returned resp, w') ->
  transcribe_fn model (temp_name os) (language_arg lang) accurate_options
    = TranscribeReturns stream info ->
  0 <= duration resp
  /\ Forall (fun s => seg_end s <= duration resp) (yielded stream).
Proof.
  intros Hrun Hm.
  apply transcribe_audio_returned in Hrun.
  destruct Hrun as (stream' & info' & Hm' & _ & -> & _).
  destruct (same_outcome Hm Hm') as [-> ->].
  assert (E : duration (audio_response (yielded stream) info)
              == Spec.maximum 0 (map seg_end (yielded stream))).
  { unfold audio_response, drained. cbn [duration].
    rewrite fold_total_duration. apply fold_py_max_maximum. }
  split.
  - rewrite E. apply maximum_ge_head.
  - apply Forall_forall. intros s Hs. rewrite E.
    apply maximum_ge_each. now apply in_map.
Qed.

Lemma audio_duration_bounds_witness :
  transcribe_audio (Some greeting_model) tmp_wav wav_upload (lit "tl") clean
  = (Returned (audio_response [kumusta; ka] tagalog),
     released tmp_wav (file_content wav_upload) clean)
  /\ 0 <= duration (audio_response [kumusta; ka] tagalog)
  /\ Forall (fun s => seg_end s <= duration (audio_response [kumusta; ka] tagalog))
            [kumusta; ka].
Proof.
  split; [reflexivity|].
  apply (@audio_duration_bounds greeting_model tmp_wav wav_upload
           (lit "tl") clean (audio_response [kumusta; ka] tagalog)
           (released tmp_wav (file_content wav_upload) clean)
           {| yielded := [kumusta; ka]; failure := None |} tagalog);
    reflexivity.
Defined.

(** The texts a successful response carries are already trimmed: stripping
    the transcript, or the text of any entry of the segment list, changes
    nothing; the same holds for the text of the low-latency response. *)
Theorem response_texts_are_trimmed whisper_model os upload lang w :
  (forall resp w',
      transcribe_audio whisper_model os upload lang w = (Returned resp, w') ->
      strip (text resp) = text resp
      /\ Forall (fun d => strip (sd_text d) = sd_text d) (segments resp))
  /\
  (forall resp w',
      transcribe_realtime whisper_model os upload lang w = (Returned resp, w') ->
      strip (rt_text resp) = rt_text resp).
Proof.
  destruct whisper_model as [model|]; (split; intros resp w' Hrun;
    [|]); try discriminate.
  - apply transcribe_audio_returned in Hrun.
    destruct Hrun as (stream & info & _ & _ & -> & _).
    split; [apply strip_idem|].
    unfold audio_response, drained. cbn [segments].
    rewrite fold_transcript_entries. simpl app.
    apply Forall_forall. intros d Hd. apply in_map_iff in Hd.
    destruct Hd as (s & <- & _). apply strip_idem.
  - apply transcribe_realtime_returned in Hrun.
    destruct Hrun as (stream & info & _ & -> & _).
    apply strip_idem.
Qed.

Lemma response_texts_are_trimmed_witness :
  (strip (text (audio_response [blank; kumusta] tagalog))
   = text (audio_response [blank; kumusta] tagalog)
   /\ Forall (fun d => strip (sd_text d) = sd_text d)
             (segments (audio_response [blank; kumusta] tagalog)))
  /\ strip (rt_text (realtime_response [kumusta; ka] tagalog))
     = rt_text (realtime_response [kumusta; ka] tagalog).
Proof.
  split.
  - apply (proj1 (response_texts_are_trimmed (Some blank_first_model)
                    tmp_wav wav_upload (lit "tl") clean)
             (audio_response [blank; kumusta] tagalog)
             (released tmp_wav (file_content wav_upload) clean)).
    reflexivity.
  - apply (proj2 (response_texts_are_trimmed (Some greeting_model)
                    tmp_wav wav_upload (lit "tl") clean)
             (realtime_response [kumusta; ka] tagalog)
             (released tmp_wav (file_content wav_upload) clean)).
    reflexivity.
Defined.

(** With an audio content type and the model loaded, [transcribe_audio] is
    its [try] block with every exception turned into a 500. *)
Lemma transcribe_audio_run model os audio_file lang w ct :
  content_type audio_file = Some ct ->
  startswith ct (lit "audio/") = true ->
  transcribe_audio (Some model) os audio_file lang w
  = match transcribe_audio_body model os audio_file lang w with
    | (Returned resp, w') => (Returned resp, w')
    | (Raised e, w') => (Raised (audio_failure e), w')
    end.
Proof.
  intros Hct Hp. unfold transcribe_audio, try_except, raise.
  rewrite Hct, Hp. reflexivity.
Qed.

Lemma transcribe_realtime_run model os audio_chunk lang w :
  transcribe_realtime (Some model) os audio_chunk lang w
  = match transcribe_realtime_body model os audio_chunk lang w with
    | (Returned resp, w') => (Returned resp, w')
    | (Raised e, w') => (Raised (realtime_failure e), w')
    end.
Proof. reflexivity. Qed.

Lemma non_audio_is_400 model os audio_file lang w ct :
  content_type audio_file = Some ct ->
  startswith ct (lit "audio/") = false ->
  transcribe_audio (Some model) os audio_file lang w
  = (Raised (HTTPException 400
               (lit "Invalid file type: " ++ ct ++ lit ". Expected audio file.")),
     w).
Proof.
  intros Hct Hp. unfold transcribe_audio. rewrite Hct, Hp. reflexivity.
Qed.

(** No exception escapes the handlers other than an [HTTPException]: with a
    declared content type [transcribe_audio] ends in a response or in status
    503, 400 or 500, and [transcribe_realtime] always ends in a response or
    in status 503 or 500. *)
Theorem handlers_raise_only_http whisper_model os upload lang w :
  (content_type upload <> None ->
   (exists resp,
       fst (transcribe_audio whisper_model os upload lang w) = Returned resp)
   \/ (exists c d,
          fst (transcribe_audio whisper_model os upload lang w)
          = Raised (HTTPException c d)
          /\ (c = 503 \/ c = 400 \/ c = 500)%N))
  /\
  ((exists resp,
       fst (transcribe_realtime whisper_model os upload lang w) = Returned resp)
   \/ (exists c d,
          fst (transcribe_realtime whisper_model os upload lang w)
          = Raised (HTTPException c d)
          /\ (c = 503 \/ c = 500)%N)).
Proof.
  destruct whisper_model as [model|].
  2:{ split; [intros _|]; right; eexists; eexists;
        (split; [reflexivity | auto]). }
  split.
  - intros Hct. destruct (content_type upload) as [ct|] eqn:Ect;
      [|now elim Hct].
    destruct (startswith ct (lit "audio/")) eqn:Ep.
    + rewrite (transcribe_audio_run model os upload lang w Ect Ep).
      destruct (transcribe_audio_body model os upload lang w) as [[resp|e] w'].
      * left. now exists resp.
      * right. eexists; eexists. split; [reflexivity | auto].
    + rewrite (non_audio_is_400 model os upload lang w Ect Ep).
      right. eexists; eexists. split; [reflexivity | auto].
  - rewrite transcribe_realtime_run.
    destruct (transcribe_realtime_body model os upload lang w) as [[resp|e] w'].
    + left. now exists resp.
    + right. eexists; eexists. split; [reflexivity | auto].
Qed.

Lemma handlers_raise_only_http_witness :
  content_type text_upload <> None
  /\ (exists c d,
         fst (transcribe_audio (Some hello_model) tmp_wav text_upload (lit "tl")
                clean)
         = Raised (HTTPException c d))
  /\ (exists resp,
         fst (transcribe_realtime (Some hello_model) tmp_wav text_upload
                (lit "tl") clean) = Returned resp).
Proof.
  assert (Hct : content_type text_upload <> None) by discriminate.
  destruct (handlers_raise_only_http (Some hello_model) tmp_wav text_upload
              (lit "tl") clean) as [Ha Hr].
  split; [exact Hct|]. split.
  - destruct (Ha Hct) as [(resp & H)|(c & d & H & _)].
    + discriminate H.
    + now exists c, d.
  - destruct Hr as [(resp & H)|(c & d & H & _)].
    + now exists resp.
    + discriminate H.
Defined.

(** A 500 of [transcribe_audio] always carries its cause: the detail is
    "Transcription failed: " followed by the message of the exception raised
    while creating or filling the temporary file, by the model call, or by
    the segment generator. *)
Theorem audio_500_carries_cause model os audio_file lang w d w' :
  transcribe_audio (Some model) os audio_file lang w
  = (Raised (HTTPException 500 d), w') ->
  exists e,
    d = lit "Transcription failed: " ++ exn_str e
    /\ (create_error os = Some e
        \/ write_error os = Some e
        \/ transcribe_fn model (temp_name os) (language_arg lang)
             accurate_options = TranscribeRaises e
        \/ exists stream info,
            transcribe_fn model (temp_name os) (language_arg lang)
              accurate_options = TranscribeReturns stream info
            /\ failure stream = Some e).
Proof.
  destruct (content_type audio_file) as [ct|] eqn:Ect.
  2:{ unfold transcribe_audio. rewrite Ect. discriminate. }
  destruct (startswith ct (lit "audio/")) eqn:Ep.
  2:{ rewrite (non_audio_is_400 model os audio_file lang w Ect Ep).
      discriminate. }
  rewrite (transcribe_audio_run model os audio_file lang w Ect Ep).
  rewrite transcribe_audio_body_run. cbv zeta. unfold audio_failure.
  destruct (create_error os) as [e|] eqn:Ec.
  { intros H. inversion H. exists e. auto. }
  destruct (write_error os) as [e|] eqn:Ew.
  { intros H. inversion H. exists e. auto. }
  destruct (transcribe_fn _ _ _ _) as [e|stream info] eqn:Em.
  { intros H. inversion H. exists e. auto. }
  destruct (failure stream) as [e|] eqn:Ef; [|discriminate].
  intros H. inversion H. exists e. split; [reflexivity|].
  right; right; right. now exists stream, info.
Qed.

Lemma audio_500_carries_cause_witness :
  transcribe_audio (Some flaky_model) tmp_wav wav_upload (lit "tl") clean
  = (Raised (HTTPException 500 (lit "Transcription failed: decoder crashed")),
     inferred tmp_wav (file_content wav_upload) clean)
  /\ exists e,
      lit "Transcription failed: decoder crashed"
      = lit "Transcription failed: " ++ exn_str e.
Proof.
  split; [reflexivity|].
  destruct (@audio_500_carries_cause flaky_model tmp_wav wav_upload (lit "tl")
              clean (lit "Transcription failed: decoder crashed")
              (inferred tmp_wav (file_content wav_upload) clean) eq_refl)
    as (e & He & _).
  now exists e.
Defined.

(** Once the temporary file has been created, every request that ends in a
    500 leaves it on disk, on either handler. *)
Theorem failed_request_leaves_staged_file whisper_model os upload lang w :
  create_error os = None ->
  (forall d w',
      transcribe_audio whisper_model os upload lang w
      = (Raised (HTTPException 500 d), w') ->
      on_disk (temp_name os) w' = true)
  /\
  (forall d w',
      transcribe_realtime whisper_model os upload lang w
      = (Raised (HTTPException 500 d), w') ->
      on_disk (temp_name os) w' = true).
Proof.
  intros Hc.
  destruct whisper_model as [model|]; (split; intros d w' Hrun;
    [|]); try discriminate.
  - destruct (content_type upload) as [ct|] eqn:Ect.
    2:{ unfold transcribe_audio in Hrun. rewrite Ect in Hrun. discriminate. }
    destruct (startswith ct (lit "audio/")) eqn:Ep.
    2:{ rewrite (non_audio_is_400 model os upload lang w Ect Ep) in Hrun.
        discriminate. }
    rewrite (transcribe_audio_run model os upload lang w Ect Ep) in Hrun.
    destruct (transcribe_audio_body model os upload lang w)
      as [[resp|e] w1] eqn:Eb; [discriminate|].
    inversion Hrun; subst.
    exact (staged_file_left_on_failure model os upload lang w Hc Eb).
  - rewrite transcribe_realtime_run in Hrun.
    destruct (transcribe_realtime_body model os upload lang w)
      as [[resp|e] w1] eqn:Eb; [discriminate|].
    inversion Hrun; subst.
    exact (staged_chunk_left_on_failure model os upload lang w Hc Eb).
Qed.

Lemma failed_request_leaves_staged_file_witness :
  create_error full_disk = None
  /\ transcribe_audio (Some hello_model) full_disk wav_upload (lit "tl") clean
     = (Raised (HTTPException 500
                  (lit "Transcription failed: No space left on device")),
        staged full_disk (file_content wav_upload) clean)
  /\ on_disk (temp_name full_disk)
       (staged full_disk (file_content wav_upload) clean) = true.
Proof.
  split; [reflexivity|]. split; [reflexivity|].
  apply (proj1 (@failed_request_leaves_staged_file (Some hello_model) full_disk
                  wav_upload (lit "tl") clean eq_refl)
           (lit "Transcription failed: No space left on device")
           (staged full_disk (file_content wav_upload) clean)).
  reflexivity.
Defined.

(** A request that succeeds leaves no staged file behind, and when the name
    [tempfile] picked was not in use the disk is exactly as it was before. *)
Theorem successful_request_restores_disk whisper_model os upload lang w :
  ~ In (temp_name os) (disk w) ->
  (forall resp w',
      transcribe_audio whisper_model os upload lang w = (Returned resp, w') ->
      disk w' = disk w /\ on_disk (temp_name os) w' = false)
  /\
  (forall resp w',
      transcribe_realtime whisper_model os upload lang w = (Returned resp, w') ->
      disk w' = disk w /\ on_disk (temp_name os) w' = false).
Proof.
  intros Hfresh.
  destruct whisper_model as [model|]; (split; intros resp w' Hrun;
    [|]); try discriminate.
  - apply transcribe_audio_returned in Hrun.
    destruct Hrun as (stream & info & _ & _ & _ & ->).
    split; [|apply released_not_on_disk].
    unfold released. cbn [disk]. now apply notin_remove.
  - apply transcribe_realtime_returned in Hrun.
    destruct Hrun as (stream & info & _ & _ & ->).
    split; [|apply released_not_on_disk].
    unfold released. cbn [disk]. now apply notin_remove.
Qed.

Lemma successful_request_restores_disk_witness :
  ~ In (temp_name tmp_wav) (disk busy)
  /\ disk (released tmp_wav (file_content wav_upload) busy) = disk busy
  /\ on_disk (temp_name tmp_wav)
       (released tmp_wav (file_content wav_upload) busy) = false.
Proof.
  assert (Hfresh : ~ In (temp_name tmp_wav) (disk busy)).
  { intros [H|[]]. discriminate H. }
  split; [exact Hfresh|].
  apply (proj1 (@successful_request_restores_disk (Some hello_model) tmp_wav
                  wav_upload (lit "tl") busy Hfresh)
           (audio_response [hello] tagalog)
           (released tmp_wav (file_content wav_upload) busy)).
  reflexivity.
Defined.

(** The low-latency path draws one segment and stops: once a first segment
    has arrived the request succeeds, whatever the generator would have
    yielded or raised afterwards, and the response is the one for that
    segment alone. *)
Theorem realtime_stops_at_first_segment
        model os audio_chunk lang w first rest tail info :
  create_error os = None ->
  write_error os = None ->
  transcribe_fn model (temp_name os) (language_arg lang) fast_options
    = TranscribeReturns {| yielded := first :: rest; failure := tail |} info ->
  transcribe_realtime (Some model) os audio_chunk lang w
  = (Returned (realtime_response [first] info),
     released os (file_content audio_chunk) w).
Proof.
  intros Hc Hw Hm. rewrite transcribe_realtime_run.
  rewrite transcribe_realtime_body_run. cbv zeta.
  rewrite Hc, Hw, Hm. reflexivity.
Qed.

Lemma realtime_stops_at_first_segment_witness :
  transcribe_realtime (Some flaky_model) tmp_wav wav_upload (lit "tl") clean
  = (Returned (realtime_response [kumusta] tagalog),
     released tmp_wav (file_content wav_upload) clean).
Proof.
  apply (@realtime_stops_at_first_segment flaky_model tmp_wav wav_upload
           (lit "tl") clean kumusta [] (Some decoder_crash) tagalog);
    reflexivity.
Defined.

(** The primary path drains the generator: if it raises at any point, the
    segments already received are dropped and the request ends in a 500
    that carries the generator's message. *)
Theorem audio_fails_when_generator_raises
        model os audio_file lang w ct items e info :
  content_type audio_file = Some ct ->
  startswith ct (lit "audio/") = true ->
  create_error os = None ->
  write_error os = None ->
  transcribe_fn model (temp_name os) (language_arg lang) accurate_options
    = TranscribeReturns {| yielded := items; failure := Some e |} info ->
  transcribe_audio (Some model) os audio_file lang w
  = (Raised (HTTPException 500 (lit "Transcription failed: " ++ exn_str e)),
     inferred os (file_content audio_file) w).
Proof.
  intros Hct Hp Hc Hw Hm.
  rewrite (transcribe_audio_run model os audio_file lang w Hct Hp).
  rewrite transcribe_audio_body_run. cbv zeta.
  rewrite Hc, Hw, Hm. reflexivity.
Qed.

Lemma audio_fails_when_generator_raises_witness :
  transcribe_audio (Some flaky_model) tmp_wav wav_upload (lit "tl") clean
  = (Raised (HTTPException 500
               (lit "Transcription failed: " ++ exn_str decoder_crash)),
     inferred tmp_wav (file_content wav_upload) clean).
Proof.
  apply (@audio_fails_when_generator_raises flaky_model tmp_wav wav_upload
           (lit "tl") clean (lit "audio/wav") [kumusta] decoder_crash tagalog);
    reflexivity.
Defined.

(** The confidence of a low-latency response is the normalised
    log-probability of the first segment alone. *)
Theorem realtime_confidence_from_first_segment
        model os audio_chunk lang w resp w' stream info first rest :
  transcribe_realtime (Some model) os audio_chunk lang w = (Returned resp, w') ->
  transcribe_fn model (temp_name os) (language_arg lang) fast_options
    = TranscribeReturns stream info ->
  yielded stream = first :: rest ->
  rt_confidence resp
  == Spec.clamp ((Spec.logProbability first + 5) / 5) 0 1.
Proof.
  intros Hrun Hm Hy.
  apply transcribe_realtime_returned in Hrun.
  destruct Hrun as (stream' & info' & Hm' & -> & _).
  destruct (same_outcome Hm Hm') as [-> ->]. rewrite Hy.
  unfold realtime_response. cbn [rt_confidence first_drawn].
  apply confidence_score_clamp. reflexivity.
Qed.

Lemma realtime_confidence_witness :
  transcribe_realtime (Some greeting_model) tmp_wav wav_upload (lit "tl") clean
  = (Returned (realtime_response [kumusta; ka] tagalog),
     released tmp_wav (file_content wav_upload) clean)
  /\ avg_logprob kumusta = Some (-1 # 2)
  /\ Spec.clamp ((Spec.logProbability kumusta + 5) / 5) 0 1 == 9 # 10
  /\ rt_confidence (realtime_response [kumusta; ka] tagalog)
     == Spec.clamp ((Spec.logProbability kumusta + 5) / 5) 0 1.
Proof.
  split; [reflexivity|]. split; [reflexivity|]. split; [reflexivity|].
  apply (@realtime_confidence_from_first_segment greeting_model tmp_wav
           wav_upload (lit "tl") clean (realtime_response [kumusta; ka] tagalog)
           (released tmp_wav (file_content wav_upload) clean)
           {| yielded := [kumusta; ka]; failure := None |} tagalog kumusta [ka]);
    reflexivity.
Defined.

(** When the first segment is not blank, the transcript is also the trimmed
    segment texts joined by single spaces with only trailing whitespace
    stripped. *)
Theorem audio_text_trailing_when_first_not_blank
        model os audio_file lang w resp w' stream info first rest :
  transcribe_audio (Some model) os audio_file lang w = (Returned resp, w') ->
  transcribe_fn model (temp_name os) (language_arg lang) accurate_options
    = TranscribeReturns stream info ->
  yielded stream = first :: rest ->
  strip (seg_text first) <> [] ->
  text resp = Spec.joined_text_trailing (yielded stream).
Proof.
  intros Hrun Hm Hy Hne.
  apply transcribe_audio_returned in Hrun.
  destruct Hrun as (stream' & info' & Hm' & _ & -> & _).
  destruct (same_outcome Hm Hm') as [-> ->]. rewrite Hy.
  now apply drained_text_trailing.
Qed.

Lemma audio_text_trailing_witness :
  transcribe_audio (Some greeting_model) tmp_wav wav_upload (lit "tl") clean
  = (Returned (audio_response [kumusta; ka] tagalog),
     released tmp_wav (file_content wav_upload) clean)
  /\ strip (seg_text kumusta) <> []
  /\ text (audio_response [kumusta; ka] tagalog)
     = Spec.joined_text_trailing [kumusta; ka].
Proof.
  assert (Hne : strip (seg_text kumusta) <> []) by discriminate.
  split; [reflexivity|]. split; [exact Hne|].
  apply (@audio_text_trailing_when_first_not_blank greeting_model tmp_wav
           wav_upload (lit "tl") clean (audio_response [kumusta; ka] tagalog)
           (released tmp_wav (file_content wav_upload) clean)
           {| yielded := [kumusta; ka]; failure := None |} tagalog kumusta [ka]
           eq_refl eq_refl eq_refl Hne).
Defined.

(** The normalisation saturates: a mean log-probability of -5 or less scores
    0, one of 0 or more scores 1, and in between the score is (x + 5) / 5. *)
Theorem confidence_score_piecewise (x : Q) :
  (x <= -5 -> confidence_score x == 0)
  /\ (0 <= x -> confidence_score x == 1)
  /\ (-5 <= x -> x <= 0 -> confidence_score x == (x + 5) / 5).
Proof.
  pose proof (confidence_score_unfold x) as Ez.
  unfold confidence_score, py_max, py_min.
  set (z := (x + 5) / 5) in *.
  destruct (Qcompare_spec z 1) as [E1|L1|G1];
    match goal with
    | |- context [0 ?= ?t] => destruct (Qcompare_spec 0 t) as [E0|L0|G0]
    end; repeat split; intros; lra.
Qed.

Lemma confidence_score_piecewise_witness :
  confidence_score (-7) == 0
  /\ confidence_score (1 # 2) == 1
  /\ confidence_score (-1) == (-1 + 5) / 5.
Proof.
  destruct (confidence_score_piecewise (-7)) as (H0 & _ & _).
  destruct (confidence_score_piecewise (1 # 2)) as (_ & H1 & _).
  destruct (confidence_score_piecewise (-1)) as (_ & _ & Hm).
  split; [apply H0; discriminate|].
  split; [apply H1; discriminate|].
  apply Hm; discriminate.
Defined.

(** A higher mean log-probability never gives a lower confidence. *)
Theorem confidence_score_monotone (x y : Q) :
  x <= y -> confidence_score x <= confidence_score y.
Proof.
  intros Hxy.
  pose proof (confidence_score_unfold x) as Ex.
  pose proof (confidence_score_unfold y) as Ey.
  unfold confidence_score, py_max, py_min.
  set (zx := (x + 5) / 5) in *. set (zy := (y + 5) / 5) in *.
  destruct (Qcompare_spec zx 1) as [Ex1|Lx1|Gx1];
    destruct (Qcompare_spec zy 1) as [Ey1|Ly1|Gy1];
    repeat match goal with
           | |- context [0 ?= ?t] =>
               destruct (Qcompare_spec 0 t) as [?|?|?]
           end; lra.
Qed.

Lemma confidence_score_monotone_witness :
  -3 <= -1 /\ confidence_score (-3) <= confidence_score (-1).
Proof.
  assert (H : -3 <= -1) by discriminate.
  split; [exact H | exact (confidence_score_monotone H)].
Defined.

Lemma trace_staged os content w :
  trace (staged os content w) = trace w ++ [Staged (temp_name os) content].
Proof. reflexivity. Qed.

Lemma trace_inferred os content w :
  trace (inferred os content w)
  = trace w ++ [Staged (temp_name os) content; Inference (temp_name os)].
Proof. unfold inferred. cbn [trace]. now rewrite <- app_assoc. Qed.

Lemma trace_released os content w :
  trace (released os content w)
  = trace w ++ [Staged (temp_name os) content; Inference (temp_name os);
                Unlinked (temp_name os)].
Proof. unfold released. cbn [trace]. now rewrite <- !app_assoc. Qed.

Lemma effects_none {A} os content w (e : raised) :
  @effects_in_order A os content w (Raised e, w).
Proof.
  exists []. split; [now rewrite app_nil_r|].
  right. split; [auto | now exists e].
Qed.

Lemma effects_staged {A} os content w (e : raised) :
  @effects_in_order A os content w (Raised e, staged os content w).
Proof.
  eexists. split; [apply trace_staged|].
  right. split; [auto | now exists e].
Qed.

Lemma effects_inferred {A} os content w (e : raised) :
  @effects_in_order A os content w (Raised e, inferred os content w).
Proof.
  eexists. split; [apply trace_inferred|].
  right. split; [auto | now exists e].
Qed.

Lemma effects_released {A} os content w (resp : A) :
  effects_in_order os content w (Returned resp, released os content w).
Proof.
  eexists. split; [apply trace_released|].
  left. split; [reflexivity | now exists resp].
Qed.

(** On every request, to either handler, inference never runs before the
    upload is staged, runs at most once, and the file is unlinked only after
    it and only when a response is returned. *)
Theorem request_effects_in_order whisper_model os upload lang w :
  effects_in_order os (file_content upload) w
    (transcribe_audio whisper_model os upload lang w)
  /\ effects_in_order os (file_content upload) w
       (transcribe_realtime whisper_model os upload lang w).
Proof.
  destruct whisper_model as [model|]; [|split; apply effects_none].
  split.
  - destruct (content_type upload) as [ct|] eqn:Ect.
    2:{ unfold transcribe_audio. rewrite Ect. apply effects_none. }
    destruct (startswith ct (lit "audio/")) eqn:Ep.
    2:{ rewrite (non_audio_is_400 model os upload lang w Ect Ep).
        apply effects_none. }
    rewrite (transcribe_audio_run model os upload lang w Ect Ep).
    rewrite transcribe_audio_body_run. cbv zeta.
    destruct (create_error os); [apply effects_none|].
    destruct (write_error os); [apply effects_staged|].
    destruct (transcribe_fn _ _ _ _) as [e|stream info];
      [apply effects_inferred|].
    destruct (failure stream); [apply effects_inferred|].
    apply effects_released.
  - rewrite transcribe_realtime_run.
    rewrite transcribe_realtime_body_run. cbv zeta.
    destruct (create_error os); [apply effects_none|].
    destruct (write_error os); [apply effects_staged|].
    destruct (transcribe_fn _ _ _ _) as [e|stream info];
      [apply effects_inferred|].
    destruct (yielded stream); [destruct (failure stream)|];
      first [apply effects_inferred | apply effects_released].
Qed.

(* ================================================================== *)
(** ** Properties of the model lifecycle and of the read-only endpoints *)

Lemma loaded_model_never_503 model os upload lang w d :
  fst (transcribe_audio (Some model) os upload lang w)
  <> Raised (HTTPException 503 d)
  /\ fst (transcribe_realtime (Some model) os upload lang w)
     <> Raised (HTTPException 503 d).
Proof.
  split.
  - destruct (content_type upload) as [ct|] eqn:Ect.
    2:{ unfold transcribe_audio. rewrite Ect. discriminate. }
    destruct (startswith ct (lit "audio/")) eqn:Ep.
    2:{ rewrite (non_audio_is_400 model os upload lang w Ect Ep).
        discriminate. }
    rewrite (transcribe_audio_run model os upload lang w Ect Ep).
    destruct (transcribe_audio_body model os upload lang w) as [[resp|e] w'];
      discriminate.
  - rewrite transcribe_realtime_run.
    destruct (transcribe_realtime_body model os upload lang w)
      as [[resp|e] w']; discriminate.
Qed.

(** A failed start-up does not stop the service, it degrades it: the model
    stays unset, the health check reports unhealthy, and both transcription
    endpoints answer 503 without touching the disk or the model. *)
Theorem failed_startup_degrades_service env new_model os upload lang w :
  fst (initialize_whisper_model env new_model None) = false ->
  startup_event env new_model None = None
  /\ status (health_check env (startup_event env new_model None))
     = lit "unhealthy"
  /\ model_loaded (health_check env (startup_event env new_model None)) = false
  /\ transcribe_audio (startup_event env new_model None) os upload lang w
     = (Raised (HTTPException 503
                  (lit "Whisper model not loaded. Check service health.")), w)
  /\ transcribe_realtime (startup_event env new_model None) os upload lang w
     = (Raised (HTTPException 503 (lit "Whisper model not loaded")), w).
Proof.
  unfold startup_event, initialize_whisper_model. cbv zeta.
  destruct (new_model _ _ _) as [m|e]; [discriminate|].
  intros _. repeat split.
Qed.

Lemma failed_startup_witness :
  fst (initialize_whisper_model no_env broken None) = false
  /\ status (health_check no_env (startup_event no_env broken None))
     = lit "unhealthy"
  /\ transcribe_audio (startup_event no_env broken None) tmp_wav wav_upload
       (lit "tl") clean
     = (Raised (HTTPException 503
                  (lit "Whisper model not loaded. Check service health.")),
        clean).
Proof.
  destruct (@failed_startup_degrades_service no_env broken tmp_wav wav_upload
              (lit "tl") clean eq_refl) as (_ & Hs & _ & Ha & _).
  split; [reflexivity|]. split; [exact Hs | exact Ha].
Defined.

(** After a successful start-up the health check reports healthy with the
    model loaded, and neither transcription endpoint answers 503 any more. *)
Theorem successful_startup_enables_service
        env new_model whisper_model os upload lang w :
  fst (initialize_whisper_model env new_model whisper_model) = true ->
  status (health_check env (startup_event env new_model whisper_model))
  = lit "healthy"
  /\ model_loaded (health_check env (startup_event env new_model whisper_model))
     = true
  /\ (forall d,
         fst (transcribe_audio (startup_event env new_model whisper_model)
                os upload lang w)
         <> Raised (HTTPException 503 d))
  /\ (forall d,
         fst (transcribe_realtime (startup_event env new_model whisper_model)
                os upload lang w)
         <> Raised (HTTPException 503 d)).
Proof.
  unfold startup_event, initialize_whisper_model. cbv zeta.
  destruct (new_model _ _ _) as [m|e]; [|discriminate].
  intros _. cbn [snd]. split; [reflexivity|]. split; [reflexivity|].
  split; intros d; apply (loaded_model_never_503 m os upload lang w d).
Qed.

Lemma successful_startup_witness :
  fst (initialize_whisper_model no_env int8_only None) = true
  /\ status (health_check no_env (startup_event no_env int8_only None))
     = lit "healthy"
  /\ model_loaded (health_check no_env (startup_event no_env int8_only None))
     = true.
Proof.
  destruct (@successful_startup_enables_service no_env int8_only None tmp_wav
              wav_upload (lit "tl") clean eq_refl) as (Hs & Hl & _).
  split; [reflexivity|]. split; [exact Hs | exact Hl].
Defined.

(** Initialisation only ever sets the model: when it fails the global keeps
    its value, when it succeeds a model is set, so a model that was loaded is
    never unloaded by a failed attempt. *)
Theorem initialize_never_unloads env new_model whisper_model :
  (fst (initialize_whisper_model env new_model whisper_model) = false ->
   snd (initialize_whisper_model env new_model whisper_model) = whisper_model)
  /\ (fst (initialize_whisper_model env new_model whisper_model) = true ->
      exists m,
        snd (initialize_whisper_model env new_model whisper_model) = Some m)
  /\ (whisper_model <> None ->
      snd (initialize_whisper_model env new_model whisper_model) <> None).
Proof.
  unfold initialize_whisper_model. cbv zeta.
  destruct (new_model _ _ _) as [m|e]; cbn [fst snd].
  - split; [discriminate|]. split; [intros _; now exists m | discriminate].
  - split; [reflexivity|]. split; [discriminate | auto].
Qed.

Lemma initialize_never_unloads_witness :
  fst (initialize_whisper_model no_env broken (Some hello_model)) = false
  /\ snd (initialize_whisper_model no_env broken (Some hello_model))
     = Some hello_model.
Proof.
  split; [reflexivity|].
  apply (proj1 (initialize_never_unloads no_env broken (Some hello_model))).
  reflexivity.
Defined.

(** The numeric precision follows the device: the weights are requested as
    float16 when the configured device is cuda and as int8 for every other
    device, at the configured size; if that load works, initialisation
    succeeds with the model it gave. *)
Theorem compute_type_follows_device env new_model whisper_model m :
  (getenv env (lit "WHISPER_DEVICE") (lit "cpu") = lit "cuda" ->
   new_model (getenv env (lit "WHISPER_MODEL_SIZE") (lit "small"))
             (lit "cuda") (lit "float16") = Returned m ->
   initialize_whisper_model env new_model whisper_model = (true, Some m))
  /\
  (getenv env (lit "WHISPER_DEVICE") (lit "cpu") <> lit "cuda" ->
   new_model (getenv env (lit "WHISPER_MODEL_SIZE") (lit "small"))
             (getenv env (lit "WHISPER_DEVICE") (lit "cpu"))
             (lit "int8") = Returned m ->
   initialize_whisper_model env new_model whisper_model = (true, Some m)).
Proof.
  unfold initialize_whisper_model. cbv zeta. split; intros Hd Hm.
  - rewrite Hd. destruct (pystr_eq_dec (lit "cuda") (lit "cuda")) as [_|n];
      [|now elim n].
    now rewrite Hm.
  - destruct (pystr_eq_dec _ (lit "cuda")) as [E|_]; [now elim Hd|].
    now rewrite Hm.
Qed.

Lemma compute_type_follows_device_witness :
  getenv no_env (lit "WHISPER_DEVICE") (lit "cpu") <> lit "cuda"
  /\ initialize_whisper_model no_env int8_only None = (true, Some hello_model)
  /\ getenv cuda_env (lit "WHISPER_DEVICE") (lit "cpu") = lit "cuda"
  /\ fst (initialize_whisper_model cuda_env int8_only None) = false.
Proof.
  assert (Hd : getenv no_env (lit "WHISPER_DEVICE") (lit "cpu") <> lit "cuda")
    by discriminate.
  split; [exact Hd|]. split.
  - apply (proj2 (compute_type_follows_device no_env int8_only None
                    hello_model) Hd).
    reflexivity.
  - split; reflexivity.
Defined.

(** The health report is consistent with itself and with [GET /models]: the
    model counts as loaded exactly when the global is set, the status is
    "healthy" exactly then, and both endpoints report the same size and
    device, "small" and "cpu" when the environment sets neither. *)
Theorem health_report_is_consistent env whisper_model :
  (model_loaded (health_check env whisper_model) = true
   <-> whisper_model <> None)
  /\ (status (health_check env whisper_model) = lit "healthy"
      <-> model_loaded (health_check env whisper_model) = true)
  /\ (status (health_check env whisper_model) = lit "unhealthy"
      <-> model_loaded (health_check env whisper_model) = false)
  /\ model_size (health_check env whisper_model)
     = current_model (list_available_models env)
  /\ device (health_check env whisper_model)
     = models_device (list_available_models env)
  /\ (env (lit "WHISPER_MODEL_SIZE") = None ->
      model_size (health_check env whisper_model) = lit "small")
  /\ (env (lit "WHISPER_DEVICE") = None ->
      device (health_check env whisper_model) = lit "cpu").
Proof.
  unfold health_check, list_available_models, getenv. cbv zeta.
  cbn [status model_loaded model_size device current_model models_device].
  destruct whisper_model as [m|].
  - repeat split; try discriminate; auto;
      try (intros H; now rewrite H).
  - repeat split; try discriminate; auto;
      try (intros H; now rewrite H); try (intros H; now elim H).
Qed.

(* ================================================================== *)
(** ** Facts about the installer *)

Lemma spawned_app (a b : list action) :
  spawned (a ++ b) = spawned a ++ spawned b.
Proof.
  induction a as [|x a IH]; [reflexivity|].
  destruct x; simpl; now rewrite IH.
Qed.

Lemma touched_app (a b : list action) :
  touched (a ++ b) = touched a ++ touched b.
Proof.
  induction a as [|x a IH]; [reflexivity|].
  destruct x; simpl; now rewrite IH.
Qed.

Lemma update_same fs p n : update fs p n p = Some n.
Proof.
  unfold update. destruct (pystr_eq_dec p p) as [_|ne]; [reflexivity|].
  now elim ne.
Qed.

Lemma update_other fs p n q : q <> p -> update fs p n q = fs q.
Proof.
  intros Hne. unfold update.
  destruct (pystr_eq_dec q p) as [E|_]; [now elim Hne | reflexivity].
Qed.

Lemma sh_is_not_bat : lit "start-whisper.sh" <> lit "start-whisper.bat".
Proof. discriminate. Qed.

Lemma bat_is_not_sh : lit "start-whisper.bat" <> lit "start-whisper.sh".
Proof. discriminate. Qed.

Section Steps.

Context {A B : Type}.

Lemma runs_ret (a : A) st : runs (sret a) st (Returned a) (files st) [] [].
Proof.
  repeat split. exists []. now rewrite app_nil_r.
Qed.

Lemma runs_bind (c : Script A) (k : A -> Script B) st a fs1 cmds1 paths1
      r fs2 cmds2 paths2 :
  runs c st (Returned a) fs1 cmds1 paths1 ->
  runs (k a) (snd (c st)) r fs2 cmds2 paths2 ->
  runs (sbind c k) st r fs2 (cmds1 ++ cmds2) (paths1 ++ paths2).
Proof.
  intros (Hr & Hf & acts1 & Hj & Hs & Ht) (Hr' & Hf' & acts2 & Hj' & Hs' & Ht').
  unfold runs, sbind. destruct (c st) as [r0 st1]. simpl in *. subst r0.
  repeat split; auto. exists (acts1 ++ acts2).
  rewrite Hj', Hj, app_assoc, spawned_app, touched_app. now subst.
Qed.

Lemma runs_bind_raised (c : Script A) (k : A -> Script B) st e fs cmds paths :
  runs c st (Raised e) fs cmds paths ->
  runs (sbind c k) st (Raised e) fs cmds paths.
Proof.
  intros (Hr & Hf & acts & Hj & Hs & Ht).
  unfold runs, sbind. destruct (c st) as [r0 st1]. simpl in *. subst r0.
  repeat split; auto. now exists acts.
Qed.

End Steps.

Lemma runs_print_then {A} l (rest : Script A) st r fs cmds paths :
  runs rest (snd (print l st)) r fs cmds paths ->
  runs (sbind (print l) (fun _ => rest)) st r fs cmds paths.
Proof.
  intros H.
  change cmds with ([] ++ cmds). change paths with ([] ++ paths).
  apply (@runs_bind unit A (print l) (fun _ => rest) st tt (files st) [] []
           r fs cmds paths); [|exact H].
  repeat split. now exists [Printed l].
Qed.

Lemma runs_ret_at {A} (a : A) st fs :
  files st = fs -> runs (sret a) st (Returned a) fs [] [].
Proof. intros <-. apply runs_ret. Qed.

Lemma runs_print_at l st fs :
  files st = fs -> runs (print l) st (Returned tt) fs [] [].
Proof. intros <-. repeat split. now exists [Printed l]. Qed.

Lemma files_after_print l st : files (snd (print l st)) = files st.
Proof. reflexivity. Qed.

Ltac journal_done :=
  repeat split;
  eexists; split;
  [ rewrite <- ?app_assoc; reflexivity | split; reflexivity ].

Lemma run_command_runs m command description st :
  runs (run_command m command description) st
       (verdict (fst (spawn m (Shell command) (files st))))
       (snd (spawn m (Shell command) (files st)))
       [Shell command] [].
Proof.
  unfold run_command. apply runs_print_then.
  unfold runs, try_called, sbind, subprocess_run, print, record, sret.
  cbn [fst snd files journal].
  destruct (spawn m (Shell command) (files st)) as [[out err|out err|e] fs'];
    cbn [fst snd files journal verdict]; journal_done.
Qed.

Lemma check_python_version_runs m st :
  runs (check_python_version m) st
       (Returned
          (negb ((major (sys_version m) <? 3)
                 || ((major (sys_version m) =? 3)
                     && (minor (sys_version m) <? 8)))%N))
       (files st) [] [].
Proof.
  unfold check_python_version. cbv zeta.
  destruct ((major (sys_version m) <? 3)
            || ((major (sys_version m) =? 3)
                && (minor (sys_version m) <? 8)))%N;
    apply runs_print_then; now apply runs_ret_at.
Qed.

Lemma version_check_reflects v :
  negb ((major v <? 3) || ((major v =? 3) && (minor v <? 8)))%N = true
  <-> supported v.
Proof.
  unfold supported.
  destruct (major v <? 3)%N eqn:E1; destruct (major v =? 3)%N eqn:E2;
    destruct (minor v <? 8)%N eqn:E3; simpl;
    rewrite ?N.ltb_lt, ?N.ltb_ge, ?N.eqb_eq, ?N.eqb_neq in *;
    split; intros H; try discriminate; try reflexivity; lia.
Qed.

Lemma setup_virtual_environment_runs m st :
  runs (setup_virtual_environment m) st
       (match files st (lit "venv") with
        | Some _ => Returned true
        | None => verdict (fst (spawn m (create_venv m) (files st)))
        end)
       (match files st (lit "venv") with
        | Some _ => files st
        | None => snd (spawn m (create_venv m) (files st))
        end)
       (match files st (lit "venv") with
        | Some _ => []
        | None => [create_venv m]
        end) [].
Proof.
  unfold setup_virtual_environment.
  change (match files st (lit "venv") with
          | Some _ => []
          | None => [create_venv m]
          end)
    with ([] ++ match files st (lit "venv") with
                | Some _ => []
                | None => [create_venv m]
                end).
  change (@nil pystr) with (@nil pystr ++ []).
  apply (@runs_bind bool bool (path_exists (lit "venv")) _ st
           (match files st (lit "venv") with Some _ => true | None => false end)
           (files st) [] []).
  { repeat split. exists []. now rewrite app_nil_r. }
  cbn [path_exists snd].
  destruct (files st (lit "venv")) as [n|] eqn:Ev; cbn [negb].
  - apply runs_print_then. now apply runs_ret_at.
  - apply runs_print_then.
    pose proof (run_command_runs m (sys_executable m ++ lit " -m venv venv")
                  (lit "Virtual environment creation")
                  (snd (print (working ++ lit " Creating virtual environment...")
                          st))) as H.
    rewrite files_after_print in H. fold (create_venv m) in H.
    destruct (verdict (fst (spawn m (create_venv m) (files st))))
      as [[|]|e] eqn:Ever.
    + change [create_venv m] with ([create_venv m] ++ []).
      change (@nil pystr) with (@nil pystr ++ []).
      eapply runs_bind; [exact H|]. cbn [negb].
      apply runs_ret_at. exact (proj1 (proj2 H)).
    + change [create_venv m] with ([create_venv m] ++ []).
      change (@nil pystr) with (@nil pystr ++ []).
      eapply runs_bind; [exact H|]. cbn [negb].
      apply runs_ret_at. exact (proj1 (proj2 H)).
    + apply runs_bind_raised. exact H.
Qed.

Lemma install_dependencies_runs m st :
  runs (install_dependencies m) st
       (verdict (fst (spawn m (pip_install m) (files st))))
       (snd (spawn m (pip_install m) (files st)))
       [pip_install m] [].
Proof.
  unfold install_dependencies, pip_install. cbv zeta. cbn [run_each].
  match goal with
  | |- context [run_command m ?c ?d] =>
      pose proof (run_command_runs m c d st) as H
  end.
  destruct (verdict _) as [[|]|e] eqn:Ever.
  - change (runs ?c st ?r ?fs [?x] []) with (runs c st r fs ([x] ++ []) ([] ++ [])).
    eapply runs_bind; [exact H|]. cbn [negb].
    apply runs_ret_at. exact (proj1 (proj2 H)).
  - change (runs ?c st ?r ?fs [?x] []) with (runs c st r fs ([x] ++ []) ([] ++ [])).
    eapply runs_bind; [exact H|]. cbn [negb].
    apply runs_ret_at. exact (proj1 (proj2 H)).
  - apply runs_bind_raised. exact H.
Qed.

Lemma test_installation_runs m st :
  runs (test_installation m) st
       (verdict (fst (spawn m (import_test m) (files st))))
       (snd (spawn m (import_test m) (files st)))
       [import_test m] [].
Proof.
  unfold test_installation, import_test. cbv zeta. apply runs_print_then.
  unfold runs, try_called, sbind, subprocess_run, print, record, sret.
  cbn [fst snd files journal].
  destruct (spawn m _ (files st)) as [[out err|out err|e] fs'];
    cbn [fst snd files journal verdict]; journal_done.
Qed.

(** Writing a file either fails and changes nothing, or puts the content in
    place. *)
Lemma write_file_runs m p content st :
  (exists e, runs (write_file m p content) st (Raised e) (files st) [] [])
  \/ (exists mode,
         runs (write_file m p content) st (Returned tt)
              (update (files st) p (File content mode)) [] [p]).
Proof.
  unfold runs, write_file.
  destruct (open_error m p) as [e|].
  { left. exists (OtherError e). repeat split. exists [].
    now rewrite app_nil_r. }
  destruct (files st p) as [[|old mode]|].
  - left. eexists. repeat split. exists []. now rewrite app_nil_r.
  - right. exists mode. repeat split. now exists [Wrote p].
  - right. exists None. repeat split. now exists [Wrote p].
Qed.

Lemma chmod_runs p mode st content old :
  files st p = Some (File content old) ->
  runs (chmod p mode) st (Returned tt)
       (update (files st) p (File content (Some mode))) [] [p].
Proof.
  intros Hp. unfold runs, chmod. rewrite Hp.
  repeat split. now exists [Chmodded p mode].
Qed.

Lemma scripts_ready_after m fs mode1 mode2 :
  (os_name m <> lit "nt" -> mode2 = Some 493%N) ->
  scripts_ready m
    (update (update fs (lit "start-whisper.bat") (File windows_script mode1))
            (lit "start-whisper.sh") (File unix_script mode2)).
Proof.
  intros Hm. split.
  - exists mode1. rewrite (update_other _ _ bat_is_not_sh). apply update_same.
  - exists mode2. split; [apply update_same | exact Hm].
Qed.

Lemma update_twice fs p n1 n2 q :
  update (update fs p n1) p n2 q = update fs p n2 q.
Proof.
  unfold update. now destruct (pystr_eq_dec q p).
Qed.

(** [create_start_script] spawns nothing; when it returns, both scripts are
    in place. *)
Lemma create_start_script_runs m st :
  exists r fs paths,
    runs (create_start_script m) st r fs [] paths
    /\ ((r = Returned tt /\ scripts_ready m fs) \/ exists e, r = Raised e).
Proof.
  unfold create_start_script.
  destruct (write_file_runs m (lit "start-whisper.bat") windows_script st)
    as [(e & H1)|(mode1 & H1)].
  { exists (Raised e), (files st), []. split; [|right; now exists e].
    now apply runs_bind_raised. }
  set (st1 := snd (write_file m (lit "start-whisper.bat") windows_script st))
    in *.
  assert (F1 : files st1
               = update (files st) (lit "start-whisper.bat")
                        (File windows_script mode1))
    by exact (proj1 (proj2 H1)).
  destruct (write_file_runs m (lit "start-whisper.sh") unix_script st1)
    as [(e & H2)|(mode2 & H2)].
  { exists (Raised e), (files st1), ([lit "start-whisper.bat"] ++ []).
    split; [|right; now exists e].
    change (@nil invocation) with (@nil invocation ++ []).
    eapply runs_bind; [exact H1|]. now apply runs_bind_raised. }
  set (st2 := snd (write_file m (lit "start-whisper.sh") unix_script st1))
    in *.
  assert (F2 : files st2
               = update (files st1) (lit "start-whisper.sh")
                        (File unix_script mode2))
    by exact (proj1 (proj2 H2)).
  destruct (pystr_eq_dec (os_name m) (lit "nt")) as [Ent|Ent].
  - exists (Returned tt), (files st2),
      ([lit "start-whisper.bat"] ++ [lit "start-whisper.sh"] ++ [] ++ []).
    split.
    + change (@nil invocation) with (@nil invocation ++ ([] ++ ([] ++ []))).
      eapply runs_bind; [exact H1|]. fold st1.
      eapply runs_bind; [exact H2|]. fold st2.
      eapply runs_bind; [apply runs_ret|]. cbv beta.
      do 2 apply runs_print_then. now apply runs_print_at.
    + left. split; [reflexivity|]. rewrite F2, F1.
      apply scripts_ready_after. intros H. now elim H.
  - pose proof (@chmod_runs (lit "start-whisper.sh") 493%N st2 unix_script
                  mode2) as H3.
    assert (E2 : files st2 (lit "start-whisper.sh")
                 = Some (File unix_script mode2))
      by (rewrite F2; apply update_same).
    specialize (H3 E2).
    exists (Returned tt),
      (update (files st2) (lit "start-whisper.sh")
              (File unix_script (Some 493%N))),
      ([lit "start-whisper.bat"] ++ [lit "start-whisper.sh"]
         ++ [lit "start-whisper.sh"] ++ []).
    split.
    + change (@nil invocation) with (@nil invocation ++ ([] ++ ([] ++ []))).
      eapply runs_bind; [exact H1|]. fold st1.
      eapply runs_bind; [exact H2|]. fold st2.
      eapply runs_bind; [exact H3|]. cbv beta.
      do 2 apply runs_print_then. apply runs_print_at.
      exact (proj1 (proj2 H3)).
    + left. split; [reflexivity|]. rewrite F2, F1.
      split.
      * exists mode1. rewrite (update_other _ _ bat_is_not_sh).
        rewrite (update_other _ _ bat_is_not_sh). apply update_same.
      * exists (Some 493%N). split; [apply update_same | auto].
Qed.

Lemma main_unfold m :
  main m
  = sbind (print (microphone ++ lit " Faster-Whisper Service Setup"))
      (fun _ =>
         sbind (print (List.concat (repeat (lit "=") 40)))
           (fun _ =>
              sbind (check_python_version m)
                (fun ok => if negb ok then sret false else from_venv m))).
Proof. reflexivity. Qed.

Lemma firstn_past {T} (cx rest : list T) k :
  cx ++ firstn k rest = firstn (List.length cx + k) (cx ++ rest).
Proof. now rewrite firstn_app_2. Qed.

Lemma firstn_exactly {T} (cx rest : list T) :
  cx = firstn (List.length cx + 0) (cx ++ rest).
Proof. rewrite firstn_app_2. simpl. now rewrite app_nil_r. Qed.

(** A step that must succeed for the script to go on. *)
Lemma guard_step m (c K : Script bool) st v fs cx rest :
  runs c st v fs cx [] ->
  (exists r' fs' cmds' paths',
      runs K (snd (c st)) r' fs' cmds' paths'
      /\ guarded_outcome m rest r' fs' cmds' paths') ->
  exists r fs2 cmds paths,
    runs (sbind c (fun ok => if negb ok then sret false else K))
         st r fs2 cmds paths
    /\ guarded_outcome m (cx ++ rest) r fs2 cmds paths.
Proof.
  intros Hc (r' & fs' & cmds' & paths' & HK & (k & Hk) & Hfalse & Htrue).
  destruct v as [[|]|e].
  - exists r', fs', (cx ++ cmds'), ([] ++ paths'). split.
    + eapply runs_bind; [exact Hc | exact HK].
    + split; [|split].
      * exists (List.length cx + k)%nat. rewrite Hk. apply firstn_past.
      * exact Hfalse.
      * intros Hr. destruct (Htrue Hr) as [-> Hs]. now split.
  - exists (Returned false), fs, (cx ++ []), ([] ++ []). split.
    + eapply runs_bind; [exact Hc|]. cbn [negb].
      apply runs_ret_at. exact (proj1 (proj2 Hc)).
    + split; [|split].
      * exists (List.length cx + 0)%nat. rewrite app_nil_r.
        apply firstn_exactly.
      * reflexivity.
      * discriminate.
  - exists (Raised e), fs, cx, []. split.
    + now apply runs_bind_raised.
    + split; [|split].
      * exists (List.length cx + 0)%nat. apply firstn_exactly.
      * discriminate.
      * discriminate.
Qed.

Lemma finish_runs m st :
  exists r fs cmds paths,
    runs (finish m) st r fs cmds paths
    /\ guarded_outcome m [] r fs cmds paths.
Proof.
  destruct (create_start_script_runs m st)
    as (r0 & fs0 & paths0 & H0 & [[-> Hready]|(e & ->)]).
  - exists (Returned true), fs0, ([] ++ []), (paths0 ++ []). split.
    + unfold finish. eapply runs_bind; [exact H0|]. cbv beta.
      do 3 apply runs_print_then.
      destruct (pystr_eq_dec (os_name m) (lit "nt"));
        do 7 apply runs_print_then; apply runs_ret_at;
        exact (proj1 (proj2 H0)).
    + split; [exists 0%nat; reflexivity|].
      split; [discriminate | intros _; now split].
  - exists (Raised e), fs0, [], paths0. split.
    + unfold finish. now apply runs_bind_raised.
    + split; [exists 0%nat; reflexivity|]. split; discriminate.
Qed.

Lemma from_test_runs m st :
  exists r fs cmds paths,
    runs (from_test m) st r fs cmds paths
    /\ guarded_outcome m [import_test m] r fs cmds paths.
Proof.
  eapply (@guard_step m (test_installation m) (finish m) st _ _
           [import_test m] []).
  - apply test_installation_runs.
  - apply finish_runs.
Qed.

Lemma from_install_runs m st :
  exists r fs cmds paths,
    runs (from_install m) st r fs cmds paths
    /\ guarded_outcome m [pip_install m; import_test m] r fs cmds paths.
Proof.
  eapply (@guard_step m (install_dependencies m) (from_test m) st _ _
           [pip_install m] [import_test m]).
  - apply install_dependencies_runs.
  - apply from_test_runs.
Qed.

Lemma from_venv_runs m st :
  exists r fs cmds paths,
    runs (from_venv m) st r fs cmds paths
    /\ guarded_outcome m (expected_commands m st) r fs cmds paths.
Proof.
  eapply (@guard_step m (setup_virtual_environment m) (from_install m) st _ _
           (match files st (lit "venv") with
            | Some _ => []
            | None => [create_venv m]
            end)
           [pip_install m; import_test m]).
  - apply setup_virtual_environment_runs.
  - apply from_install_runs.
Qed.

(** Everything the theorems below need to know about a run of [main]. *)
Lemma main_runs m st :
  exists r fs cmds paths,
    runs (main m) st r fs cmds paths
    /\ guarded_outcome m (expected_commands m st) r fs cmds paths
    /\ (r = Returned true -> supported (sys_version m))
    /\ (~ supported (sys_version m) ->
        r = Returned false /\ fs = files st /\ cmds = [] /\ paths = []).
Proof.
  rewrite main_unfold.
  set (st1 := snd (print (microphone ++ lit " Faster-Whisper Service Setup") st)).
  set (st2 := snd (print (List.concat (repeat (lit "=") 40)) st1)).
  pose proof (check_python_version_runs m st2) as Hc.
  set (st3 := snd (check_python_version m st2)) in *.
  assert (F3 : files st3 = files st) by exact (proj1 (proj2 Hc)).
  destruct (negb _) eqn:Eok in Hc.
  - apply version_check_reflects in Eok.
    destruct (from_venv_runs m st3) as (r & fs & cmds & paths & Hr & Hg).
    exists r, fs, ([] ++ cmds), ([] ++ paths). split; [|split; [|split]].
    + do 2 apply runs_print_then. fold st1 st2.
      eapply runs_bind; [exact Hc|]. exact Hr.
    + unfold expected_commands in *. now rewrite F3 in Hg.
    + intros _. exact Eok.
    + intros Hn. now elim Hn.
  - assert (Hn : ~ supported (sys_version m)).
    { intros Hs. apply version_check_reflects in Hs.
      rewrite Hs in Eok. discriminate. }
    exists (Returned false), (files st), ([] ++ []), ([] ++ []).
    split; [|split; [|split]].
    + do 2 apply runs_print_then. fold st1 st2.
      eapply runs_bind; [exact Hc|]. cbn [negb]. now apply runs_ret_at.
    + split; [exists 0%nat; reflexivity|]. split; [reflexivity|discriminate].
    + discriminate.
    + intros _. repeat split.
Qed.







Lemma runs_journal {A} (c : Script A) st r fs cmds paths :
  runs c st r fs cmds paths ->
  fst (c st) = r
  /\ files (snd (c st)) = fs
  /\ spawned (journal (snd (c st))) = spawned (journal st) ++ cmds
  /\ touched (journal (snd (c st))) = touched (journal st) ++ paths.
Proof.
  intros (Hr & Hf & acts & Hj & Hs & Ht).
  rewrite Hj, spawned_app, touched_app, Hs, Ht. auto.
Qed.

(* ================================================================== *)
(** ** Properties of the installer *)




(** When [main] returns True the interpreter is supported, every expected
    command was spawned, in order, and both start scripts are on disk with
    the contents of the source, the shell script with mode 0o755 unless the
    machine runs Windows. *)
Theorem successful_setup_writes_start_scripts m st st' :
  main m st = (Returned true, st') ->
  supported (sys_version m)
  /\ spawned (journal st') = spawned (journal st) ++ expected_commands m st
  /\ (exists mode,
         files st' (lit "start-whisper.bat")
         = Some (File windows_script mode))
  /\ (exists mode,
         files st' (lit "start-whisper.sh") = Some (File unix_script mode)
         /\ (os_name m <> lit "nt" -> mode = Some 493%N)).
Proof.
  intros Hrun.
  destruct (main_runs m st)
    as (r & fs & cmds & paths & Hr & (_ & _ & Htrue) & Hsup & _).
  destruct (runs_journal Hr) as (H1 & H2 & H3 & _).
  rewrite Hrun in H1, H2, H3. cbn [fst snd] in H1, H2, H3. subst r.
  destruct (Htrue eq_refl) as (-> & Hbat & Hsh).
  rewrite H2. auto.
Qed.

Lemma successful_setup_witness :
  main linux empty_dir = (Returned true, snd (main linux empty_dir))
  /\ spawned (journal (snd (main linux empty_dir)))
     = [create_venv linux; pip_install linux; import_test linux]
  /\ exists mode,
      files (snd (main linux empty_dir)) (lit "start-whisper.sh")
      = Some (File unix_script mode).
Proof.
  assert (Hrun : main linux empty_dir
                 = (Returned true, snd (main linux empty_dir))).
  { rewrite (surjective_pairing (main linux empty_dir)) at 1.
    apply (f_equal2 pair); [vm_compute; reflexivity | reflexivity]. }
  destruct (successful_setup_writes_start_scripts linux empty_dir Hrun)
    as (_ & Hs & _ & (mode & Hsh & _)).
  split; [exact Hrun|]. split; [exact Hs | now exists mode].
Defined.

(** When [main] returns False it has written no file and changed no mode:
    the start scripts are only created once every earlier step succeeded. *)
Theorem failed_setup_writes_nothing m st st' :
  main m st = (Returned false, st') ->
  touched (journal st') = touched (journal st).
Proof.
  intros Hrun.
  destruct (main_runs m st)
    as (r & fs & cmds & paths & Hr & (_ & Hfalse & _) & _).
  destruct (runs_journal Hr) as (H1 & _ & _ & H4).
  rewrite Hrun in H1, H4. cbn [fst snd] in H1, H4. subst r.
  rewrite (Hfalse eq_refl), app_nil_r in H4. exact H4.
Qed.

Lemma failed_setup_witness :
  main offline_linux with_venv
  = (Returned false, snd (main offline_linux with_venv))
  /\ touched (journal (snd (main offline_linux with_venv))) = [].
Proof.
  assert (Hrun : main offline_linux with_venv
                 = (Returned false, snd (main offline_linux with_venv))).
  { rewrite (surjective_pairing (main offline_linux with_venv)) at 1.
    apply (f_equal2 pair); [vm_compute; reflexivity | reflexivity]. }
  split; [exact Hrun|].
  exact (failed_setup_writes_nothing offline_linux with_venv Hrun).
Defined.







